(** * OpenAPI ingestion source ([datahub.ingestion.source.openapi])

    A shallow embedding of [OpenApiConfig.get_swagger] and of the crawl loop
    [APISource.get_workunits_internal], with its helpers
    [report_bad_response], [init_dataset] and [build_wu].

    Python objects mutated in place ([self.config.token], [self.report],
    [self.url_basepath], the local dict [root_dataset_samples]) and the
    stream of yielded work units live in one explicit state record that is
    threaded through a state-and-exception monad. The functions imported from
    [openapi_parser] are not part of the module; they are taken as the fields
    of a record of collaborators, and every call that reaches the network is
    written to a log. *)

From Stdlib Require Import Ascii.
From stdpp Require Import base option list strings gmap pretty.

Local Open Scope Z_scope.
Set Warnings "-register-all".

(** ** Python string primitives *)

Module PyStr.

(** [s[1:]] *)
Definition tail (s : string) : string :=
  match s with
  | EmptyString => EmptyString
  | String _ s' => s'
  end.

(** [s[-1]], when [s] is not empty. *)
Fixpoint last (s : string) : option ascii :=
  match s with
  | EmptyString => None
  | String c EmptyString => Some c
  | String _ s' => last s'
  end.

(** [s[:-1]] *)
Fixpoint init (s : string) : string :=
  match s with
  | EmptyString => EmptyString
  | String _ EmptyString => EmptyString
  | String c s' => String c (init s')
  end.

(** [s.replace(old, new)] for a non-empty [old]: occurrences are found from
    left to right and do not overlap. [skip] counts the characters of the
    occurrence just replaced that are still to be dropped. *)
Fixpoint replace_from (old new : string) (skip : nat) (s : string) : string :=
  match s with
  | EmptyString => EmptyString
  | String c s' =>
      match skip with
      | S k => replace_from old new k s'
      | O =>
          if String.prefix old s
          then new +:+ replace_from old new (Nat.pred (String.length old)) s'
          else String c (replace_from old new O s')
      end
  end.

Definition replace (old new s : string) : string := replace_from old new O s.

(** [sub in s] for a non-empty [sub]. *)
Fixpoint contains (sub s : string) : bool :=
  match s with
  | EmptyString => false
  | String _ s' => String.prefix sub s || contains sub s'
  end.

(** [s.split(sep)] for a non-empty [sep]; [cur] is the piece being read. *)
Fixpoint split_from (sep : string) (skip : nat) (cur s : string) : list string :=
  match s with
  | EmptyString => [cur]
  | String c s' =>
      match skip with
      | S k => split_from sep k cur s'
      | O =>
          if String.prefix sep s
          then cur :: split_from sep (Nat.pred (String.length sep)) EmptyString s'
          else split_from sep O (cur +:+ String c EmptyString) s'
      end
  end.

Definition split (sep s : string) : list string := split_from sep O EmptyString s.

(** Truth value of a string: [bool(s)]. *)
Definition truthy (s : string) : bool :=
  match s with
  | EmptyString => false
  | String _ _ => true
  end.

End PyStr.

(** ** Dataset names (the first lines of [init_dataset]) *)

Definition dataset_name_of (endpoint_k : string) : string :=
  let dataset_name := PyStr.replace "/" "." (PyStr.tail endpoint_k) in
  if (0 <? String.length dataset_name)%nat then
    if decide (PyStr.last dataset_name = Some "."%char)
    then PyStr.init dataset_name
    else dataset_name
  else "root".


(** ** Values read from the swagger document *)

Inductive json : Type :=
  | JNull
  | JBool (b : bool)
  | JNum (n : Z)
  | JStr (s : string)
  | JArr (items : list json)
  | JObj (entries : list (string * json)).

(** Truth value of a Python object built from JSON. *)
Definition truthy (v : json) : bool :=
  match v with
  | JNull => false
  | JBool b => b
  | JNum n => negb (n =? 0)
  | JStr s => PyStr.truthy s
  | JArr items => match items with [] => false | _ :: _ => true end
  | JObj entries => match entries with [] => false | _ :: _ => true end
  end.

(** [d.get(key)] on a dict given by its entries. *)
Fixpoint dict_get (key : string) (entries : list (string * json)) : option json :=
  match entries with
  | [] => None
  | (k, v) :: rest => if decide (k = key) then Some v else dict_get key rest
  end.

(** [v is None], for the result of a [get]. *)
Definition is_None (v : option json) : bool :=
  match v with
  | None | Some JNull => true
  | Some _ => false
  end.

(** The swagger dict: its [basePath] entry and the rest of the document. *)
Record Specification : Type := {
  basePath : option string;
  document : json
}.

(** One value of [url_endpoints]. [description] and [tags] are read by
    subscript, [schema] and [data] may be absent. *)
Record endpoint_dets : Type := {
  description : string;
  tags : list string;
  schema : option json;
  data : option json
}.

Record Response : Type := {
  status_code : Z;
  body : string
}.

(** ** Configuration *)

Record OpenApiConfig : Type := {
  name : string;
  url : string;
  swagger_file : string;
  ignore_endpoints : list string;
  username : string;
  password : string;
  forced_examples : gmap string (list string);
  token : option string;
  get_token : gmap string string
}.

Definition with_token (t : option string) (c : OpenApiConfig) : OpenApiConfig :=
  {| name := name c; url := url c; swagger_file := swagger_file c;
     ignore_endpoints := ignore_endpoints c; username := username c;
     password := password c; forced_examples := forced_examples c;
     token := t; get_token := get_token c |}.

(** ** Exceptions, credentials and the log of outgoing calls *)

Inductive exn : Type :=
  | AssertionError (msg : string)
  | KeyError (arg : string)
  | ValueError
  | AttributeError
  | Exception (msg : string)
  | Foreign (cls : string).

Inductive credentials : Type :=
  | Bearer (tok : string)
  | BasicAuth (user pass : string).

Inductive call : Type :=
  | CallGetTok (url username password tok_url method : string)
  | CallGetSwagJson (url : string) (auth : credentials) (swagger_file : string)
  | CallRequest (tot_url : string) (auth : credentials).

(** The result of a computation: a value or a raised exception. *)
Inductive outcome (A : Type) : Type :=
  | Ok (a : A)
  | Raise (e : exn).
Arguments Ok {A} a.
Arguments Raise {A} e.

(** ** Datasets and work units *)

Section Source.

Context {SchemaMetadata : Type}.

Inductive aspect : Type :=
  | DatasetPropertiesClass (description : string)
  | GlobalTagsClass (tags : list string)
  | InstitutionalMemoryClass (link_url link_description : string) (time : Z) (actor : string)
  | SchemaMetadataAspect (schema_metadata : SchemaMetadata).

Record DatasetSnapshot : Type := {
  urn : string;
  aspects : list aspect
}.

Definition append_aspect (a : aspect) (d : DatasetSnapshot) : DatasetSnapshot :=
  {| urn := urn d; aspects := aspects d ++ [a] |}.

Record ApiWorkUnit : Type := {
  id : string;
  mce : DatasetSnapshot
}.

(** The functions imported from [openapi_parser], [make_tag_urn] and the
    clock. They are taken to return normally, except [try_guessing], which may
    raise: what is proved below describes the runs in which the calls to
    [get_tok], [get_swag_json] and [request_call] return, and says nothing of
    a run that one of them ends with an exception of its own. *)
Record Collaborators : Type := {
  get_tok : string → string → string → string → string → string;
  get_swag_json : string → credentials → string → Specification;
  get_endpoints : Specification → list (string * endpoint_dets) * list string;
  extract_metadata : string → json → Specification → option SchemaMetadata;
  set_metadata : string → json → SchemaMetadata;
  request_call : string → credentials → Response;
  extract_fields : Response → string → json * json;
  try_guessing : string → gmap string json → exn + string;
  compose_url_attr : string → list string → string;
  clean_url : string → string;
  make_tag_urn : string → string;
  time_time : Z
}.

(** ** The mutable state of an [APISource]

    [report] is the list of [(key, reason)] warnings in the order they were
    reported; [root_dataset_samples] is the local dict of the crawl loop;
    [yielded] are the work units handed to the consumer so far. *)
Record source : Type := {
  config : OpenApiConfig;
  platform : string;
  report : list (string * string);
  url_basepath : string;
  root_dataset_samples : gmap string json;
  yielded : list ApiWorkUnit;
  calls : list call
}.

Definition set_config (c : OpenApiConfig) (s : source) : source :=
  {| config := c; platform := platform s; report := report s;
     url_basepath := url_basepath s;
     root_dataset_samples := root_dataset_samples s;
     yielded := yielded s; calls := calls s |}.

Definition set_report (r : list (string * string)) (s : source) : source :=
  {| config := config s; platform := platform s; report := r;
     url_basepath := url_basepath s;
     root_dataset_samples := root_dataset_samples s;
     yielded := yielded s; calls := calls s |}.

Definition set_url_basepath (b : string) (s : source) : source :=
  {| config := config s; platform := platform s; report := report s;
     url_basepath := b;
     root_dataset_samples := root_dataset_samples s;
     yielded := yielded s; calls := calls s |}.

Definition set_root_dataset_samples (m : gmap string json) (s : source) : source :=
  {| config := config s; platform := platform s; report := report s;
     url_basepath := url_basepath s;
     root_dataset_samples := m;
     yielded := yielded s; calls := calls s |}.

Definition set_yielded (y : list ApiWorkUnit) (s : source) : source :=
  {| config := config s; platform := platform s; report := report s;
     url_basepath := url_basepath s;
     root_dataset_samples := root_dataset_samples s;
     yielded := y; calls := calls s |}.

Definition set_calls (l : list call) (s : source) : source :=
  {| config := config s; platform := platform s; report := report s;
     url_basepath := url_basepath s;
     root_dataset_samples := root_dataset_samples s;
     yielded := yielded s; calls := l |}.

(** [APISource.__init__] *)
Definition init_source (cfg : OpenApiConfig) (plat : string) : source :=
  {| config := cfg; platform := plat; report := []; url_basepath := "";
     root_dataset_samples := ∅; yielded := []; calls := [] |}.

(** ** A monad for state and exceptions *)

Definition M (A : Type) : Type := source → outcome A * source.

#[global] Instance M_ret : MRet M := λ A a s, (Ok a, s).

#[global] Instance M_bind : MBind M := λ A B f m s,
  match m s with
  | (Ok a, s') => f a s'
  | (Raise e, s') => (Raise e, s')
  end.

Definition raise {A : Type} (e : exn) : M A := λ s, (Raise e, s).

Definition get_state : M source := λ s, (Ok s, s).

Definition modify (f : source → source) : M unit := λ s, (Ok tt, f s).

(** [assert cond, msg] *)
Definition py_assert (cond : bool) (msg : string) : M unit :=
  if cond then mret tt else raise (AssertionError msg).

(** [for x in xs: body(x)], stopping at the first exception. *)
Fixpoint for_each {A : Type} (body : A → M unit) (xs : list A) : M unit :=
  match xs with
  | [] => mret tt
  | x :: rest => body x ;; for_each body rest
  end.

(** Modelled from the spec: [SourceReport] is defined outside this module; the
    report is an append-only collection of (endpoint, reason) pairs, so
    [self.report.report_warning(key=..., reason=...)] adds one pair at the
    end. *)
Definition report_warning (key reason : string) : M unit :=
  modify (λ s, set_report (report s ++ [(key, reason)]) s).

(** [yield wu] *)
Definition yield (wu : ApiWorkUnit) : M unit :=
  modify (λ s, set_yielded (yielded s ++ [wu]) s).

Definition log_call (c : call) : M unit :=
  modify (λ s, set_calls (calls s ++ [c]) s).

Variable ext : Collaborators.

(** ** [OpenApiConfig.get_swagger] *)

(** [d[key]] on the [get_token] dict. *)
Definition subscript (d : gmap string string) (key : string) : M string :=
  match d !! key with
  | Some v => mret v
  | None => raise (KeyError key)
  end.

(** The [else] branch of [if self.token is not None]: check the descriptor,
    build the token url, ask for a token and store it in [self.token]. *)
Definition acquire_token : M string :=
  s ← get_state;
  let self := config s in
  py_assert (bool_decide (is_Some (get_token self !! "url_complement")))
    "When 'request_type' is set to 'get', an url_complement is needed for the request." ;;
  request_type ← subscript (get_token self) "request_type";
  url4req ←
    (if decide (request_type = "get") then
       url_complement ← subscript (get_token self) "url_complement";
       py_assert (PyStr.contains "{username}" url_complement)
         "we expect the keyword {username} to be present in the url" ;;
       py_assert (PyStr.contains "{password}" url_complement)
         "we expect the keyword {password} to be present in the url" ;;
       mret (PyStr.replace "{password}" (password self)
               (PyStr.replace "{username}" (username self) url_complement))
     else if decide (request_type = "post") then
       subscript (get_token self) "url_complement"
     else
       raise (KeyError "This tool accepts only 'get' and 'post' as method for getting tokens"));
  log_call (CallGetTok (url self) (username self) (password self) url4req request_type) ;;
  let tok := get_tok ext (url self) (username self) (password self) url4req request_type in
  modify (λ s, set_config (with_token (Some tok) (config s)) s) ;;
  mret tok.

Definition get_swagger : M Specification :=
  s ← get_state;
  let self := config s in
  if negb (bool_decide (get_token self = ∅)) || bool_decide (is_Some (token self)) then
    tok ← match token self with
          | Some t => mret t
          | None => acquire_token
          end;
    log_call (CallGetSwagJson (url self) (Bearer tok) (swagger_file self)) ;;
    mret (get_swag_json ext (url self) (Bearer tok) (swagger_file self))
  else
    log_call (CallGetSwagJson (url self)
                (BasicAuth (username self) (password self)) (swagger_file self)) ;;
    mret (get_swag_json ext (url self)
            (BasicAuth (username self) (password self)) (swagger_file self)).

(** ** [APISource.report_bad_response] *)

Definition codes_mapping : gmap Z string :=
  list_to_map
    [ (400, "Unknown error for reaching endpoint");
      (403, "Not authorised to get endpoint");
      (404, "Unable to find an example for endpoint. Please add it to the list of forced examples.");
      (500, "Server error for reaching endpoint");
      (504, "Timeout for reaching endpoint") ].

Definition report_bad_response (status_code : Z) (key : string) : M unit :=
  let reason := codes_mapping !! status_code in
  match reason with
  | None =>
      raise (Exception ("Unable to retrieve endpoint, response code "
                          +:+ pretty status_code +:+ ", key " +:+ key))
  | Some _ => mret tt
  end.

(** ** [APISource.init_dataset] and [APISource.build_wu] *)

Definition init_dataset (self : source) (endpoint_k : string)
    (endpoint_dets : endpoint_dets) : DatasetSnapshot * string :=
  let config := config self in
  let dataset_name := dataset_name_of endpoint_k in
  let dataset_snapshot :=
    {| urn := "urn:li:dataset:(urn:li:dataPlatform:" +:+ platform self +:+ ","
                +:+ name config +:+ "." +:+ dataset_name +:+ ",PROD)";
       aspects := [] |} in
  let dataset_snapshot :=
    append_aspect (DatasetPropertiesClass (description endpoint_dets)) dataset_snapshot in
  let dataset_snapshot :=
    append_aspect (GlobalTagsClass (make_tag_urn ext <$> tags endpoint_dets)) dataset_snapshot in
  let link_url := clean_url ext (url config +:+ url_basepath self +:+ endpoint_k) in
  let dataset_snapshot :=
    append_aspect
      (InstitutionalMemoryClass link_url "Link to call for the dataset."
         (time_time ext) "urn:li:corpuser:etl")
      dataset_snapshot in
  (dataset_snapshot, dataset_name).

Definition build_wu (dataset_snapshot : DatasetSnapshot) (dataset_name : string)
    : ApiWorkUnit :=
  {| id := dataset_name; mce := dataset_snapshot |}.

(** ** [APISource.get_workunits_internal] *)

(** [request_call] with the token when [config.token] is truthy, with the
    username and password otherwise; the source writes this out at each of its
    three fetches. *)
Definition endpoint_credentials (config : OpenApiConfig) : credentials :=
  match token config with
  | Some t =>
      if PyStr.truthy t then Bearer t
      else BasicAuth (username config) (password config)
  | None => BasicAuth (username config) (password config)
  end.

Definition request_endpoint (tot_url : string) : M Response :=
  s ← get_state;
  let auth := endpoint_credentials (config s) in
  log_call (CallRequest tot_url auth) ;;
  mret (request_call ext tot_url auth).

(** [dataset_snapshot.aspects.append(schema_metadata)] followed by
    [yield self.build_wu(dataset_snapshot, dataset_name)]. *)
Definition emit (dataset_snapshot : DatasetSnapshot) (dataset_name : string)
    (schema_metadata : SchemaMetadata) : M unit :=
  yield (build_wu (append_aspect (SchemaMetadataAspect schema_metadata) dataset_snapshot)
           dataset_name).

(** The block guarded by the declared schema. The result tells whether the
    loop body ended there ([continue]). *)
Definition declared_schema (specification : Specification)
    (endpoint_dets : endpoint_dets)
    (dataset_snapshot : DatasetSnapshot) (dataset_name : string) : M bool :=
  match schema endpoint_dets with
  | None => mret false
  | Some sch =>
      if truthy sch then
        any_value ← match sch with
                    | JObj entries => mret (dict_get "AnyValue" entries)
                    | _ => raise AttributeError
                    end;
        if is_None any_value then
          match extract_metadata ext dataset_name sch specification with
          | Some _ =>
              d ← match data endpoint_dets with
                  | Some d => mret d
                  | None => raise (KeyError "data")
                  end;
              emit dataset_snapshot dataset_name (set_metadata ext dataset_name d) ;;
              mret true
          | None => mret false
          end
        else mret false
      else mret false
  end.

(** What is done with the response of a guessed or forced url. *)
Definition handle_response (endpoint_k : string) (response : Response)
    (dataset_snapshot : DatasetSnapshot) (dataset_name : string) : M unit :=
  if decide (status_code response = 200) then
    let '(fields2add, _) := extract_fields ext response dataset_name in
    (if negb (truthy fields2add)
     then report_warning endpoint_k "No Fields" else mret tt) ;;
    emit dataset_snapshot dataset_name (set_metadata ext dataset_name fields2add)
  else
    report_bad_response (status_code response) endpoint_k.

(** The branches taken when the swagger gives no data for the endpoint. *)
Definition sample_endpoint (endpoint_k : string)
    (dataset_snapshot : DatasetSnapshot) (dataset_name : string) : M unit :=
  s ← get_state;
  let config := config s in
  if negb (PyStr.contains "{" endpoint_k) then
    let tot_url := clean_url ext (url config +:+ url_basepath s +:+ endpoint_k) in
    response ← request_endpoint tot_url;
    if decide (status_code response = 200) then
      let '(fields2add, sample) := extract_fields ext response dataset_name in
      modify (λ s, set_root_dataset_samples
                     (<[dataset_name := sample]> (root_dataset_samples s)) s) ;;
      (if negb (truthy fields2add)
       then report_warning endpoint_k "No Fields" else mret tt) ;;
      emit dataset_snapshot dataset_name (set_metadata ext dataset_name fields2add)
    else
      report_bad_response (status_code response) endpoint_k
  else
    match forced_examples config !! endpoint_k with
    | None =>
        url_guess ← match try_guessing ext endpoint_k (root_dataset_samples s) with
                    | inr u => mret u
                    | inl e => raise e
                    end;
        let tot_url := clean_url ext (url config +:+ url_basepath s +:+ url_guess) in
        response ← request_endpoint tot_url;
        handle_response endpoint_k response dataset_snapshot dataset_name
    | Some attr_list =>
        let composed_url := compose_url_attr ext endpoint_k attr_list in
        let tot_url := clean_url ext (url config +:+ url_basepath s +:+ composed_url) in
        response ← request_endpoint tot_url;
        handle_response endpoint_k response dataset_snapshot dataset_name
    end.

(** The result of handling the response to [endpoint_k], written as a function
    of the state ([sample_endpoint] and [handle_response] are shown equal to
    it below); [concrete] tells whether the path had no placeholder. *)
Definition after_response (concrete : bool) (endpoint_k : string)
    (response : Response) (dataset_snapshot : DatasetSnapshot)
    (dataset_name : string) (s : source) : outcome unit * source :=
  if decide (status_code response = 200) then
    let fields2add := (extract_fields ext response dataset_name).1 in
    let sample := (extract_fields ext response dataset_name).2 in
    let s2 := if concrete
              then set_root_dataset_samples
                     (<[dataset_name := sample]> (root_dataset_samples s)) s
              else s in
    let s3 := if truthy fields2add then s2
              else set_report (report s2 ++ [(endpoint_k, "No Fields")]) s2 in
    (Ok tt,
     set_yielded
       (yielded s3 ++
          [build_wu (append_aspect
                       (SchemaMetadataAspect (set_metadata ext dataset_name fields2add))
                       dataset_snapshot) dataset_name]) s3)
  else report_bad_response (status_code response) endpoint_k s.

(** The url that [sample_endpoint] asks for, read off its three branches: the
    path itself, the guess, or the path filled with the forced example. *)
Definition fetched_url (s : source) (endpoint_k : string) : exn + string :=
  let config := config s in
  if negb (PyStr.contains "{" endpoint_k) then
    inr (clean_url ext (url config +:+ url_basepath s +:+ endpoint_k))
  else
    match forced_examples config !! endpoint_k with
    | None =>
        match try_guessing ext endpoint_k (root_dataset_samples s) with
        | inr url_guess => inr (clean_url ext (url config +:+ url_basepath s +:+ url_guess))
        | inl e => inl e
        end
    | Some attr_list =>
        inr (clean_url ext (url config +:+ url_basepath s
                              +:+ compose_url_attr ext endpoint_k attr_list))
    end.

(** The body of the loop over [url_endpoints.items()]. *)
Definition process_endpoint (specification : Specification)
    (item : string * endpoint_dets) : M unit :=
  let '(endpoint_k, endpoint_dets) := item in
  s ← get_state;
  if bool_decide (endpoint_k ∈ ignore_endpoints (config s)) then mret tt
  else
    let '(dataset_snapshot, dataset_name) := init_dataset s endpoint_k endpoint_dets in
    finished ← declared_schema specification endpoint_dets dataset_snapshot dataset_name;
    if finished : bool then mret tt
    else
      match data endpoint_dets with
      | Some d =>
          if truthy d
          then emit dataset_snapshot dataset_name (set_metadata ext dataset_name d)
          else sample_endpoint endpoint_k dataset_snapshot dataset_name
      | None => sample_endpoint endpoint_k dataset_snapshot dataset_name
      end.

(** The warnings caught around [get_endpoints]: each message is split at
    [" --- "] into a reason and a key. *)
Definition forward_warning (w_msg : string) : M unit :=
  match PyStr.split " --- " w_msg with
  | w_spl_reason :: w_spl_key :: _ => report_warning w_spl_key w_spl_reason
  | _ => raise ValueError
  end.

Definition get_workunits_internal : M unit :=
  specification ← get_swagger;
  modify (set_url_basepath (default "" (basePath specification))) ;;
  let '(url_endpoints, warn_c) := get_endpoints ext specification in
  for_each forward_warning warn_c ;;
  modify (set_root_dataset_samples ∅) ;;
  for_each (process_endpoint specification) url_endpoints.

(** [APISource.get_report] *)
Definition get_report (self : source) : list (string * string) := report self.

(** [OpenApiSource.__init__]: an [APISource] on the platform ["OpenApi"]. *)
Definition OpenApiSource (config : OpenApiConfig) : source := init_source config "OpenApi".

End Source.

Arguments Collaborators SchemaMetadata : clear implicits.
Arguments source SchemaMetadata : clear implicits.

(** ** Notions used in the statements *)

(** [endpoint_dets] with the ["schema"] key removed. *)
Definition without_schema (d : endpoint_dets) : endpoint_dets :=
  {| description := description d; tags := tags d; schema := None; data := data d |}.

(** Whether the loop body gets to its fetching branches for an endpoint: the
    key is not ignored; the ["schema"] entry is absent or falsy, or is a dict
    marked [AnyValue], or one the extractor gets nothing from; the ["data"]
    entry is absent or falsy. *)
Definition reaches_sampling {SchemaMetadata : Type} (ext : Collaborators SchemaMetadata)
    (specification : Specification) (config : OpenApiConfig)
    (endpoint_k : string) (endpoint_dets : endpoint_dets) : bool :=
  negb (bool_decide (endpoint_k ∈ ignore_endpoints config)) &&
  match schema endpoint_dets with
  | None => true
  | Some (JObj entries) =>
      negb (truthy (JObj entries)) ||
      negb (is_None (dict_get "AnyValue" entries)) ||
      match extract_metadata ext (dataset_name_of endpoint_k) (JObj entries)
              specification with
      | Some _ => false
      | None => true
      end
  | Some sch => negb (truthy sch)
  end &&
  match data endpoint_dets with
  | None => true
  | Some d => negb (truthy d)
  end.

(** The work unit of an endpoint that carries the schema metadata [md]. *)
Definition unit_of {SchemaMetadata : Type} (ext : Collaborators SchemaMetadata)
    (s : source SchemaMetadata) (item : string * endpoint_dets)
    (md : SchemaMetadata) : ApiWorkUnit :=
  build_wu (append_aspect (SchemaMetadataAspect md)
              (init_dataset ext s item.1 item.2).1)
    (dataset_name_of item.1).

(** The credentials the document is loaded with, given the token the
    configuration holds after [get_swagger]. *)
Definition swagger_credentials (before after : OpenApiConfig) : credentials :=
  match token after with
  | Some t => Bearer t
  | None => BasicAuth (username before) (password before)
  end.

(** ** A small world to run the crawl in *)

Module Demo.

(** The text a sample value is written as in a url. *)
Definition render (v : json) : option string :=
  match v with
  | JNum n => Some (pretty n)
  | JStr s => Some s
  | _ => None
  end.

(** What follows the closing brace of a placeholder. *)
Definition after_brace (piece : string) : string :=
  match PyStr.split "}" piece with
  | _ :: rest :: _ => rest
  | _ => ""
  end.

(** Modelled from the spec: [try_guessing] is imported from [openapi_parser],
    which is not part of this module. The spec has it look in the sample cache
    for the dataset that is the ancestor of the path (the sample kept for
    [/users] informs [/users/{id}]), take one value of that sample and put it
    in place of the placeholder; when no qualifying sample exists it fails with
    [UnresolvableParameterError]. The ancestor is the text before the first
    placeholder; the value is that of the first key of the sample. *)
Definition guess_url (endpoint_k : string) (samples : gmap string json)
    : exn + string :=
  match PyStr.split "{" endpoint_k with
  | listing :: placeholders =>
      match samples !! dataset_name_of listing with
      | Some (JObj ((_, v) :: _)) =>
          match render v with
          | Some value =>
              inr (listing +:+
                   foldr (λ piece acc, value +:+ after_brace piece +:+ acc) "" placeholders)
          | None => inl (Foreign "UnresolvableParameterError")
          end
      | _ => inl (Foreign "UnresolvableParameterError")
      end
  | [] => inl (Foreign "UnresolvableParameterError")
  end.

(** The answers of the server, by url; a url that is not listed gives 404. *)
Fixpoint answer (responses : list (string * Response)) (tot_url : string) : Response :=
  match responses with
  | [] => {| status_code := 404; body := "" |}
  | (u, r) :: rest => if decide (u = tot_url) then r else answer rest tot_url
  end.

(** Field names and representative sample of a body; only the bodies used
    below are told apart. *)
Definition fields_of (response : Response) : json * json :=
  if decide (body response = "[{id:1,name:Ada}]")
  then (JArr [JStr "id"; JStr "name"], JObj [("id", JNum 1); ("name", JStr "Ada")])
  else (JArr [], JObj []).

Definition world (endpoints : list (string * endpoint_dets)) (warn_c : list string)
    (responses : list (string * Response)) : Collaborators (string * json) :=
  {| get_tok := λ _ _ _ _ _, "fresh-token";
     get_swag_json := λ _ _ _, {| basePath := Some "/v1"; document := JNull |};
     get_endpoints := λ _, (endpoints, warn_c);
     extract_metadata := λ dataset_name sch _, Some (dataset_name, sch);
     set_metadata := λ dataset_name fields, (dataset_name, fields);
     request_call := λ tot_url _, answer responses tot_url;
     extract_fields := λ response _, fields_of response;
     try_guessing := guess_url;
     compose_url_attr := λ raw_url attr_list,
       PyStr.replace "{id}" (default "" (head attr_list)) raw_url;
     clean_url := λ u, u;
     make_tag_urn := λ t, "urn:li:tag:" +:+ t;
     time_time := 0 |}.

Definition cfg : OpenApiConfig :=
  {| name := "shop"; url := "http://api"; swagger_file := "";
     ignore_endpoints := []; username := "ada"; password := "pw";
     forced_examples := ∅; token := None; get_token := ∅ |}.

Definition plain (descr : string) : endpoint_dets :=
  {| description := descr; tags := []; schema := None; data := None |}.

Definition ok_users : Response :=
  {| status_code := 200; body := "[{id:1,name:Ada}]" |}.

Definition cfg_ignoring (paths : list string) : OpenApiConfig :=
  {| name := "shop"; url := "http://api"; swagger_file := "";
     ignore_endpoints := paths; username := "ada"; password := "pw";
     forced_examples := ∅; token := None; get_token := ∅ |}.

(** An endpoint with a declared schema and declared data. *)
Definition declared : endpoint_dets :=
  {| description := "users"; tags := ["people"];
     schema := Some (JObj [("type", JStr "object")]);
     data := Some (JArr [JStr "id"; JStr "name"]) |}.

Definition status (code : Z) : Response := {| status_code := code; body := "" |}.

(** The state of a fresh source once the document is loaded. *)
Definition loaded (c : OpenApiConfig) : source (string * json) :=
  set_url_basepath "/v1" (init_source c "OpenApi").

Definition spec_v1 : Specification := {| basePath := Some "/v1"; document := JNull |}.

(** Token descriptors: by GET with both placeholders, by POST, and one that
    lacks its [url_complement]. *)
Definition get_descriptor : gmap string string :=
  {[ "request_type" := "get"; "url_complement" := "/login?u={username}&p={password}" ]}.

Definition post_descriptor : gmap string string :=
  {[ "request_type" := "post"; "url_complement" := "/token" ]}.

Definition cfg_with_descriptor (d : gmap string string) : OpenApiConfig :=
  {| name := "shop"; url := "http://api"; swagger_file := "";
     ignore_endpoints := []; username := "ada"; password := "pw";
     forced_examples := ∅; token := None; get_token := d |}.

Definition put_descriptor : gmap string string :=
  {[ "request_type" := "put"; "url_complement" := "/token" ]}.

(** An endpoint whose schema is marked [AnyValue]. *)
Definition unconstrained : endpoint_dets :=
  {| description := "anything"; tags := [];
     schema := Some (JObj [("AnyValue", JObj [])]); data := None |}.

Definition cfg_forced : OpenApiConfig :=
  {| name := "shop"; url := "http://api"; swagger_file := "";
     ignore_endpoints := []; username := "ada"; password := "pw";
     forced_examples := {[ "/users/{id}" := ["42"] ]}; token := None; get_token := ∅ |}.

(** A descriptor with an unsupported [request_type], no [url_complement] and
    hence no placeholders. *)
Definition malformed_descriptor : gmap string string := {[ "request_type" := "put" ]}.

End Demo.

(** * Properties *)

(** ** Dataset names *)

Lemma prefix_slash (c : ascii) (s s' : string) :
  String.prefix "/" (String c s) = String.prefix "/" (String c s').
Proof. cbn [String.prefix]. destruct (ascii_dec _ _); [by destruct s, s'|done]. Qed.

Lemma replace_slash_cons (c : ascii) (s : string) :
  PyStr.replace "/" "." (String c s) =
  if String.prefix "/" (String c s)
  then String "."%char (PyStr.replace "/" "." s)
  else String c (PyStr.replace "/" "." s).
Proof. reflexivity. Qed.

Lemma replace_slash_length (s : string) :
  String.length (PyStr.replace "/" "." s) = String.length s.
Proof.
  induction s as [|c s IH]; [done|].
  rewrite replace_slash_cons. destruct (String.prefix _ _); simpl; by rewrite IH.
Qed.

Lemma replace_slash_no_slash (s : string) :
  PyStr.contains "/" s = false → PyStr.replace "/" "." s = s.
Proof.
  induction s as [|c s IH]; [done|].
  rewrite replace_slash_cons. cbn [PyStr.contains].
  destruct (String.prefix _ _); simpl; [done|].
  intros H. by rewrite IH.
Qed.

Lemma replace_slash_clean (s : string) :
  PyStr.contains "/" (PyStr.replace "/" "." s) = false.
Proof.
  induction s as [|c s IH]; [done|].
  rewrite replace_slash_cons.
  destruct (String.prefix _ _) eqn:E.
  - exact IH.
  - cbn [PyStr.contains]. rewrite (prefix_slash c _ s), E. exact IH.
Qed.

Lemma init_no_slash (s : string) :
  PyStr.contains "/" s = false → PyStr.contains "/" (PyStr.init s) = false.
Proof.
  induction s as [|c s IH]; [done|].
  destruct s as [|c' s']; [done|].
  change (PyStr.init (String c (String c' s'))) with (String c (PyStr.init (String c' s'))).
  cbn [PyStr.contains]. intros H.
  apply orb_false_iff in H as [H1 H2]. apply orb_false_iff. split.
  - by rewrite (prefix_slash c _ (String c' s')).
  - by apply IH.
Qed.

Lemma dataset_name_no_slash (x : string) :
  PyStr.contains "/" (dataset_name_of x) = false.
Proof.
  unfold dataset_name_of. cbv zeta.
  destruct (0 <? _)%nat; [|done].
  destruct (decide _); [|apply replace_slash_clean].
  apply init_no_slash, replace_slash_clean.
Qed.



(** C4, as the code has it. The two examples of the claim hold. Deriving a name
    again from a derived name does not give it back (the first character is
    dropped each time); it does once the leading separator is put back, for a
    derived name that is not empty and does not end in a dot. *)
Theorem dataset_name_rederived (x : string) :
  dataset_name_of x ≠ "" →
  PyStr.last (dataset_name_of x) ≠ Some "."%char →
  dataset_name_of "/" = "root" ∧
  dataset_name_of "/a/b/" = "a.b" ∧
  dataset_name_of ("/" +:+ dataset_name_of x) = dataset_name_of x.
Proof.
  intros Hne Hlast. split; [done|]. split; [done|].
  pose proof (dataset_name_no_slash x) as Hclean.
  remember (dataset_name_of x) as n eqn:Hn. clear Hn.
  unfold dataset_name_of at 1. cbv zeta.
  change (PyStr.tail ("/" +:+ n)) with n.
  rewrite (replace_slash_no_slash n Hclean).
  destruct n as [|c n]; [done|].
  change (0 <? String.length (String c n))%nat with true. cbv iota.
  by destruct (decide _).
Qed.

Lemma dataset_name_rederived_witness :
  dataset_name_of "/a/b/" ≠ "" ∧
  dataset_name_of ("/" +:+ dataset_name_of "/a/b/") = dataset_name_of "/a/b/".
Proof.
  split; [done|].
  apply (dataset_name_rederived "/a/b/"); [done|].
  vm_compute. discriminate.
Defined.

(** C4, as stated, fails: the name derived from ["/a/b/"] is ["a.b"], and the
    name derived from ["a.b"] is [".b"]. *)
Lemma dataset_name_not_idempotent :
  dataset_name_of "/a/b/" = "a.b" ∧
  dataset_name_of (dataset_name_of "/a/b/") = ".b" ∧
  dataset_name_of (dataset_name_of "/a/b/") ≠ dataset_name_of "/a/b/".
Proof. split; [done|]. split; [done|]. vm_compute. discriminate. Qed.

(** ** Loading the specification *)

Section Swagger.

Context {SchemaMetadata : Type} (ext : Collaborators SchemaMetadata).
Implicit Types s : source SchemaMetadata.

(** The credentials of an endpoint request follow the truth value of the
    token. *)
Lemma request_endpoint_falsy_token s (tot_url : string) :
  token (config s) = None ∨ token (config s) = Some "" →
  request_endpoint ext tot_url s =
    (Ok (request_call ext tot_url
           (BasicAuth (username (config s)) (password (config s)))),
     set_calls
       (calls s ++ [CallRequest tot_url
                      (BasicAuth (username (config s)) (password (config s)))])
       s).
Proof.
  intros [Ht|Ht]; unfold request_endpoint, endpoint_credentials, mbind, M_bind, get_state;
    by rewrite Ht.
Qed.

End Swagger.

(** C9. When [token] is not [None], [get_swagger] returns normally with the
    document fetched with that token; its only call is that fetch, so nothing
    of the [get_token] descriptor is checked and no token is asked for,
    whatever the descriptor holds. *)
Theorem get_swagger_skips_acquisition {SchemaMetadata : Type}
    (ext : Collaborators SchemaMetadata) (s : source SchemaMetadata) (t : string) :
  token (config s) = Some t →
  get_swagger ext s =
    (Ok (get_swag_json ext (url (config s)) (Bearer t) (swagger_file (config s))),
     set_calls
       (calls s ++ [CallGetSwagJson (url (config s)) (Bearer t) (swagger_file (config s))])
       s).
Proof.
  intros Ht. unfold get_swagger, mbind, M_bind, get_state.
  rewrite Ht. rewrite (bool_decide_eq_true_2 (is_Some (Some t))) by eauto.
  by rewrite orb_true_r.
Qed.

Lemma get_swagger_skips_acquisition_witness :
  let s := init_source
             (with_token (Some "abc")
                {| name := "shop"; url := "http://api"; swagger_file := "";
                   ignore_endpoints := []; username := "ada"; password := "pw";
                   forced_examples := ∅; token := None;
                   get_token := Demo.malformed_descriptor |})
             "OpenApi" in
  get_swagger (Demo.world [] [] []) s =
    (Ok {| basePath := Some "/v1"; document := JNull |},
     set_calls [CallGetSwagJson "http://api" (Bearer "abc") ""] s).
Proof.
  intros s. exact (get_swagger_skips_acquisition (Demo.world [] [] []) s "abc" eq_refl).
Defined.

(** Without the token the same descriptor is refused. *)
Example malformed_descriptor_refused :
  fst (get_swagger (Demo.world [] [] [])
         (init_source
            {| name := "shop"; url := "http://api"; swagger_file := "";
               ignore_endpoints := []; username := "ada"; password := "pw";
               forced_examples := ∅; token := None;
               get_token := Demo.malformed_descriptor |}
            "OpenApi"))
  = Raise (AssertionError
      "When 'request_type' is set to 'get', an url_complement is needed for the request.").
Proof. vm_compute. reflexivity. Qed.

(** C10. With the empty string as token, [get_swagger] takes the token branch
    (no token is asked for, the document is fetched with the empty token and
    the configuration is left as it is), while every endpoint request takes
    the other branch and is sent with the username and password. *)
Theorem empty_token_two_readings {SchemaMetadata : Type}
    (ext : Collaborators SchemaMetadata) (s : source SchemaMetadata) (tot_url : string) :
  token (config s) = Some "" →
  get_swagger ext s =
    (Ok (get_swag_json ext (url (config s)) (Bearer "") (swagger_file (config s))),
     set_calls
       (calls s ++ [CallGetSwagJson (url (config s)) (Bearer "") (swagger_file (config s))])
       s) ∧
  request_endpoint ext tot_url s =
    (Ok (request_call ext tot_url
           (BasicAuth (username (config s)) (password (config s)))),
     set_calls
       (calls s ++ [CallRequest tot_url
                      (BasicAuth (username (config s)) (password (config s)))])
       s).
Proof.
  intros Ht. split.
  - unfold get_swagger, mbind, M_bind, get_state. rewrite Ht.
    rewrite (bool_decide_eq_true_2 (is_Some (Some ""))) by eauto.
    by rewrite orb_true_r.
  - apply request_endpoint_falsy_token. by right.
Qed.

Lemma empty_token_two_readings_witness :
  let s := init_source (with_token (Some "") Demo.cfg) "OpenApi" in
  calls (snd (get_swagger (Demo.world [] [] []) s))
    = [CallGetSwagJson "http://api" (Bearer "") ""] ∧
  calls (snd (request_endpoint (Demo.world [] [] []) "http://api/v1/users" s))
    = [CallRequest "http://api/v1/users" (BasicAuth "ada" "pw")].
Proof.
  intros s.
  destruct (empty_token_two_readings (Demo.world [] [] []) s "http://api/v1/users" eq_refl)
    as [H1 H2].
  rewrite H1, H2. split; reflexivity.
Defined.

(** ** The crawl loop *)

Section Crawl.

Context {SchemaMetadata : Type} (ext : Collaborators SchemaMetadata).
Implicit Types s : source SchemaMetadata.
Implicit Types dataset_snapshot : @DatasetSnapshot SchemaMetadata.

Ltac run :=
  unfold mbind, M_bind, mret, M_ret, get_state, modify, raise, log_call,
    report_warning, emit, yield in *; simpl in *.

(** A classified status code leaves the state as it is; any other one
    raises. *)
Lemma report_bad_response_classified s (code : Z) (key reason : string) :
  codes_mapping !! code = Some reason →
  report_bad_response code key s = (Ok tt, s).
Proof. intros H. unfold report_bad_response. by rewrite H. Qed.

Lemma report_bad_response_other s (code : Z) (key : string) :
  codes_mapping !! code = None →
  report_bad_response code key s =
    (Raise (Exception ("Unable to retrieve endpoint, response code "
                         +:+ pretty code +:+ ", key " +:+ key)), s).
Proof. intros H. unfold report_bad_response. by rewrite H. Qed.

Lemma request_endpoint_run s (tot_url : string) :
  request_endpoint ext tot_url s =
    (Ok (request_call ext tot_url (endpoint_credentials (config s))),
     set_calls (calls s ++ [CallRequest tot_url (endpoint_credentials (config s))]) s).
Proof. reflexivity. Qed.

Lemma handle_response_run s endpoint_k response dataset_snapshot dataset_name :
  handle_response ext endpoint_k response dataset_snapshot dataset_name s =
  after_response ext false endpoint_k response dataset_snapshot dataset_name s.
Proof.
  unfold handle_response, after_response.
  destruct (decide _); [|done].
  destruct (extract_fields _ _ _) as [fields2add sample]; simpl.
  run. by destruct (truthy fields2add).
Qed.

Lemma sample_endpoint_raises s endpoint_k dataset_snapshot dataset_name e :
  fetched_url ext s endpoint_k = inl e →
  sample_endpoint ext endpoint_k dataset_snapshot dataset_name s = (Raise e, s).
Proof.
  unfold fetched_url, sample_endpoint. run.
  destruct (PyStr.contains "{" endpoint_k); simpl; [|done].
  destruct (forced_examples _ !! _); [done|].
  destruct (try_guessing _ _ _); [|done].
  by intros [= ->].
Qed.

Lemma sample_endpoint_fetch s endpoint_k dataset_snapshot dataset_name tot_url :
  fetched_url ext s endpoint_k = inr tot_url →
  sample_endpoint ext endpoint_k dataset_snapshot dataset_name s =
  let auth := endpoint_credentials (config s) in
  after_response ext (negb (PyStr.contains "{" endpoint_k)) endpoint_k
    (request_call ext tot_url auth) dataset_snapshot dataset_name
    (set_calls (calls s ++ [CallRequest tot_url auth]) s).
Proof.
  unfold fetched_url, sample_endpoint.
  destruct (PyStr.contains "{" endpoint_k); simpl.
  - destruct (forced_examples _ !! _) eqn:Hforced.
    + intros [= <-]. unfold mbind, M_bind, get_state. rewrite Hforced.
      rewrite request_endpoint_run. apply handle_response_run.
    + destruct (try_guessing _ _ _) eqn:Hguess; [done|].
      intros [= <-]. unfold mbind, M_bind, get_state. rewrite Hforced, Hguess.
      unfold mret, M_ret. rewrite request_endpoint_run. apply handle_response_run.
  - intros [= <-]. unfold mbind, M_bind, get_state.
    rewrite request_endpoint_run. unfold after_response.
    destruct (decide _); [|done].
    destruct (extract_fields _ _ _) as [fields2add sample]; simpl.
    run. by destruct (truthy fields2add).
Qed.

(** The block of the declared schema never fetches, reports or touches the
    sample cache; when it does not end the loop body it changes nothing. *)
Lemma declared_schema_fall_through s specification endpoint_dets
    dataset_snapshot dataset_name s' :
  declared_schema ext specification endpoint_dets dataset_snapshot dataset_name s
    = (Ok false, s') →
  s' = s.
Proof.
  unfold declared_schema. run.
  destruct (schema endpoint_dets) as [sch|]; [|by intros [= <-]].
  destruct (truthy sch); [|by intros [= <-]].
  destruct sch; try done.
  destruct (is_None _); [|by intros [= <-]].
  destruct (extract_metadata _ _ _ _); [|by intros [= <-]].
  by destruct (data endpoint_dets).
Qed.

Lemma declared_schema_frame s specification endpoint_dets dataset_snapshot dataset_name :
  let s' := (declared_schema ext specification endpoint_dets
               dataset_snapshot dataset_name s).2 in
  root_dataset_samples s' = root_dataset_samples s ∧ calls s' = calls s ∧
  report s' = report s ∧ config s' = config s.
Proof.
  unfold declared_schema. run.
  destruct (schema endpoint_dets) as [sch|]; [|done].
  destruct (truthy sch); [|done].
  destruct sch; try done.
  destruct (is_None _); [|done].
  destruct (extract_metadata _ _ _ _); [|done].
  by destruct (data endpoint_dets).
Qed.

(** A classified status code ends the loop body normally and leaves nothing
    behind but the logged request: in particular the report is unchanged. *)
Lemma classified_status_skips_silently s endpoint_k dataset_snapshot dataset_name
    tot_url (reason : string) :
  let auth := endpoint_credentials (config s) in
  let code := status_code (request_call ext tot_url auth) in
  fetched_url ext s endpoint_k = inr tot_url →
  codes_mapping !! code = Some reason →
  sample_endpoint ext endpoint_k dataset_snapshot dataset_name s =
    (Ok tt, set_calls (calls s ++ [CallRequest tot_url auth]) s).
Proof.
  intros auth code Hurl Hcode.
  rewrite (sample_endpoint_fetch _ _ _ _ _ Hurl). cbv zeta.
  unfold after_response. fold auth. fold code.
  destruct (decide (code = 200)) as [E|_].
  - rewrite E in Hcode. vm_compute in Hcode. discriminate.
  - by apply (report_bad_response_classified _ _ _ reason).
Qed.

(** An exception raised by the body for one item ends the loop there. *)
Lemma for_each_raise {A : Type} (body : A → M unit) (x : A) (rest : list A) s s'
    (e : exn) :
  body x s = (Raise e, s') →
  for_each body (x :: rest) s = (Raise e, s').
Proof. intros H. cbn [for_each]. unfold mbind, M_bind. by rewrite H. Qed.

Lemma for_each_next {A : Type} (body : A → M unit) (x : A) (rest : list A) s s' :
  body x s = (Ok tt, s') →
  for_each body (x :: rest) s = for_each body rest s'.
Proof. intros H. cbn [for_each]. unfold mbind, M_bind. by rewrite H. Qed.

(** An endpoint that reaches the fetching branches is handled by
    [sample_endpoint], on the snapshot and name of [init_dataset]. *)
Lemma process_endpoint_sampled s specification endpoint_k endpoint_dets :
  reaches_sampling ext specification (config s) endpoint_k endpoint_dets = true →
  process_endpoint ext specification (endpoint_k, endpoint_dets) s =
  sample_endpoint ext endpoint_k (init_dataset ext s endpoint_k endpoint_dets).1
    (dataset_name_of endpoint_k) s.
Proof.
  unfold reaches_sampling.
  intros [[Hign Hschema]%andb_true_iff Hdata]%andb_true_iff.
  apply negb_true_iff in Hign.
  unfold process_endpoint, mbind, M_bind, get_state. rewrite Hign.
  cbv beta iota zeta delta [init_dataset]. cbn [fst snd].
  assert (∀ dataset_snapshot,
    declared_schema ext specification endpoint_dets dataset_snapshot
      (dataset_name_of endpoint_k) s = (Ok false, s)) as ->.
  { intros dataset_snapshot.
    unfold declared_schema, mbind, M_bind, mret, M_ret, raise.
    destruct (schema endpoint_dets) as [sch|]; [|done].
    destruct (truthy sch) eqn:Htruthy; [|done].
    destruct sch as [|b|n|str|items|entries]; simpl in Hschema, Htruthy;
      try done; try (rewrite Htruthy in Hschema; done).
    destruct entries as [|entry entries']; [done|]. simpl in Hschema.
    destruct (is_None _); [|done]. simpl in Hschema.
    by destruct (extract_metadata _ _ _ _). }
  destruct (data endpoint_dets) as [d|]; [|done].
  apply negb_true_iff in Hdata. by rewrite Hdata.
Qed.

(** C7. A fetch that answers 200 with a falsy (empty) field list is neither an
    error nor a skip: the loop body returns normally and yields one work unit,
    whose id is the dataset name of the endpoint and whose aspects are the
    description, the tags, the link and, last, the schema metadata built from
    that field list; the warning "No Fields" is appended to the report under
    the endpoint. *)
Theorem no_fields_still_emitted s specification endpoint_k endpoint_dets tot_url :
  let dataset_name := dataset_name_of endpoint_k in
  let response := request_call ext tot_url (endpoint_credentials (config s)) in
  let fields2add := (extract_fields ext response dataset_name).1 in
  reaches_sampling ext specification (config s) endpoint_k endpoint_dets = true →
  fetched_url ext s endpoint_k = inr tot_url →
  status_code response = 200 →
  truthy fields2add = false →
  ∃ s' wu,
    process_endpoint ext specification (endpoint_k, endpoint_dets) s = (Ok tt, s') ∧
    yielded s' = yielded s ++ [wu] ∧
    id wu = dataset_name ∧
    urn (mce wu) =
      "urn:li:dataset:(urn:li:dataPlatform:" +:+ platform s +:+ ","
        +:+ name (config s) +:+ "." +:+ dataset_name +:+ ",PROD)" ∧
    aspects (mce wu) =
      [ DatasetPropertiesClass (description endpoint_dets);
        GlobalTagsClass (make_tag_urn ext <$> tags endpoint_dets);
        InstitutionalMemoryClass
          (clean_url ext (url (config s) +:+ url_basepath s +:+ endpoint_k))
          "Link to call for the dataset." (time_time ext) "urn:li:corpuser:etl";
        SchemaMetadataAspect (set_metadata ext dataset_name fields2add) ] ∧
    report s' = report s ++ [(endpoint_k, "No Fields")].
Proof.
  intros dataset_name response fields2add Hreach Hurl Hstatus Hfields.
  rewrite (process_endpoint_sampled _ _ _ _ Hreach).
  rewrite (sample_endpoint_fetch _ _ _ _ _ Hurl). cbv zeta.
  fold response. fold dataset_name. unfold after_response.
  destruct (decide _) as [_|Hne]; [|done].
  fold fields2add. rewrite Hfields.
  eexists _, _. split; [reflexivity|].
  destruct (negb _); simpl; by split_and!.
Qed.

(** C2, as the code has it. A response whose status code is neither 200 nor one
    of the five classified codes (201 and 204 among them) raises the exception
    of [report_bad_response]: no fields are inferred and nothing is yielded,
    reported or cached; only the request itself is in the log. *)
Theorem unclassified_status_raises s endpoint_k dataset_snapshot dataset_name tot_url :
  let auth := endpoint_credentials (config s) in
  let code := status_code (request_call ext tot_url auth) in
  fetched_url ext s endpoint_k = inr tot_url →
  code ≠ 200 →
  codes_mapping !! code = None →
  sample_endpoint ext endpoint_k dataset_snapshot dataset_name s =
    (Raise (Exception ("Unable to retrieve endpoint, response code "
                         +:+ pretty code +:+ ", key " +:+ endpoint_k)),
     set_calls (calls s ++ [CallRequest tot_url auth]) s).
Proof.
  intros auth code Hurl Hne Hcode.
  rewrite (sample_endpoint_fetch _ _ _ _ _ Hurl). cbv zeta.
  unfold after_response. fold auth. fold code.
  destruct (decide _); [done|].
  by apply report_bad_response_other.
Qed.

(** C3, as the code has it. For an endpoint that reaches the fetching
    branches, whose path has a placeholder and no forced example, the loop
    hands the path and the sample cache to [try_guessing] and has no handler
    for its failure. An exception raised there ends the loop over the
    endpoints at once, with the state untouched: no warning, no work unit, and
    the endpoints after it are never processed. A returned url is requested,
    once, and the response decides as for any other endpoint: 200 yields the
    work unit (with "No Fields" for a falsy field list), a classified code
    ends the loop body normally, any other code raises; the sample cache is
    left alone in each case. *)
Theorem guessing_is_not_guarded s specification
    (rest : list (string * endpoint_dets)) endpoint_k endpoint_dets :
  let dataset_name := dataset_name_of endpoint_k in
  reaches_sampling ext specification (config s) endpoint_k endpoint_dets = true →
  PyStr.contains "{" endpoint_k = true →
  forced_examples (config s) !! endpoint_k = None →
  match try_guessing ext endpoint_k (root_dataset_samples s) with
  | inl e =>
      for_each (process_endpoint ext specification)
        ((endpoint_k, endpoint_dets) :: rest) s = (Raise e, s)
  | inr url_guess =>
      let tot_url := clean_url ext (url (config s) +:+ url_basepath s +:+ url_guess) in
      let auth := endpoint_credentials (config s) in
      let response := request_call ext tot_url auth in
      let fields2add := (extract_fields ext response dataset_name).1 in
      ∃ s',
        calls s' = calls s ++ [CallRequest tot_url auth] ∧
        root_dataset_samples s' = root_dataset_samples s ∧
        if decide (status_code response = 200) then
          process_endpoint ext specification (endpoint_k, endpoint_dets) s = (Ok tt, s') ∧
          (∃ wu,
             yielded s' = yielded s ++ [wu] ∧
             id wu = dataset_name ∧
             aspects (mce wu) =
               [ DatasetPropertiesClass (description endpoint_dets);
                 GlobalTagsClass (make_tag_urn ext <$> tags endpoint_dets);
                 InstitutionalMemoryClass
                   (clean_url ext (url (config s) +:+ url_basepath s +:+ endpoint_k))
                   "Link to call for the dataset." (time_time ext) "urn:li:corpuser:etl";
                 SchemaMetadataAspect (set_metadata ext dataset_name fields2add) ]) ∧
          report s' =
            report s ++ (if truthy fields2add then [] else [(endpoint_k, "No Fields")])
        else
          yielded s' = yielded s ∧ report s' = report s ∧
          process_endpoint ext specification (endpoint_k, endpoint_dets) s =
            (match codes_mapping !! status_code response with
             | Some _ => Ok tt
             | None =>
                 Raise (Exception ("Unable to retrieve endpoint, response code "
                                     +:+ pretty (status_code response)
                                     +:+ ", key " +:+ endpoint_k))
             end, s')
  end.
Proof.
  intros dataset_name Hreach Hbrace Hforced.
  pose proof (process_endpoint_sampled _ _ _ _ Hreach) as Hsampled.
  destruct (try_guessing _ _ _) as [e|url_guess] eqn:Hguess.
  - apply for_each_raise. rewrite Hsampled.
    apply sample_endpoint_raises. unfold fetched_url.
    by rewrite Hbrace, Hforced, Hguess.
  - cbv zeta. rewrite Hsampled.
    rewrite (sample_endpoint_fetch s endpoint_k _ _
               (clean_url ext (url (config s) +:+ url_basepath s +:+ url_guess)))
      by (unfold fetched_url; by rewrite Hbrace, Hforced, Hguess).
    cbv zeta. rewrite Hbrace. unfold after_response, report_bad_response.
    subst dataset_name. simpl negb. cbv iota.
    destruct (decide _) as [H200|Hne].
    + destruct (truthy _);
        (eexists; refine (conj _ (conj _ (conj eq_refl (conj _ _)))));
        try reflexivity;
        try (eexists; split_and!; reflexivity).
      cbn [report set_yielded set_calls]. by rewrite app_nil_r.
    + exists (set_calls
                (calls s ++
                   [CallRequest
                      (clean_url ext (url (config s) +:+ url_basepath s +:+ url_guess))
                      (endpoint_credentials (config s))]) s).
      split_and!; try done.
      by destruct (codes_mapping !! _).
Qed.

Lemma after_response_config s concrete endpoint_k response dataset_snapshot dataset_name :
  config (after_response ext concrete endpoint_k response
            dataset_snapshot dataset_name s).2 = config s.
Proof.
  unfold after_response, report_bad_response.
  destruct (decide _).
  - by destruct concrete, (truthy _).
  - by destruct (codes_mapping !! _).
Qed.

Lemma sample_endpoint_config s endpoint_k dataset_snapshot dataset_name :
  config (sample_endpoint ext endpoint_k dataset_snapshot dataset_name s).2 = config s.
Proof.
  destruct (fetched_url ext s endpoint_k) as [e|tot_url] eqn:Hurl.
  - by rewrite (sample_endpoint_raises _ _ _ _ _ Hurl).
  - rewrite (sample_endpoint_fetch _ _ _ _ _ Hurl). cbv zeta.
    by rewrite after_response_config.
Qed.

Lemma process_endpoint_config s specification item :
  config (process_endpoint ext specification item s).2 = config s.
Proof.
  destruct item as [endpoint_k endpoint_dets].
  unfold process_endpoint, mbind, M_bind, get_state.
  destruct (bool_decide _); [done|].
  cbv beta iota zeta delta [init_dataset].
  match goal with
  | |- context [declared_schema ?e ?sp ?d ?snap ?n s] =>
      pose proof (declared_schema_frame s sp d snap n) as (_ & _ & _ & Hcfg);
      pose proof (declared_schema_fall_through s sp d snap n) as Hfall;
      destruct (declared_schema e sp d snap n s) as [[[]|e'] s1]
  end; simpl in *; try done.
  rewrite (Hfall s1 eq_refl).
  destruct (data endpoint_dets) as [d|]; [destruct (truthy d); [done|]|];
    apply sample_endpoint_config.
Qed.

(** C6, as the code has it. The loop body does nothing for a path of
    [ignore_endpoints]: it returns at once and the state (work units, report,
    sample cache, calls) is the one it started from. The warnings caught around
    [get_endpoints] are forwarded before the loop, whatever path they name. *)
Theorem ignored_endpoint_untouched s specification endpoint_k endpoint_dets :
  endpoint_k ∈ ignore_endpoints (config s) →
  process_endpoint ext specification (endpoint_k, endpoint_dets) s = (Ok tt, s).
Proof.
  intros Hin. unfold process_endpoint, mbind, M_bind, get_state.
  by rewrite bool_decide_eq_true_2.
Qed.

(** X20. The loop over all endpoints is the loop over those not ignored:
    same outcome and same final state. *)
Lemma crawl_skips_ignored s specification
    (url_endpoints : list (string * endpoint_dets)) :
  for_each (process_endpoint ext specification) url_endpoints s =
  for_each (process_endpoint ext specification)
    (filter (λ item, item.1 ∉ ignore_endpoints (config s)) url_endpoints) s.
Proof.
  revert s. induction url_endpoints as [|[endpoint_k endpoint_dets] rest IH]; intros s.
  { done. }
  destruct (decide (endpoint_k ∈ ignore_endpoints (config s))) as [Hin|Hout].
  - rewrite filter_cons_False by (simpl; tauto).
    rewrite <- IH. cbn [for_each]. unfold mbind at 1. unfold M_bind.
    assert (process_endpoint ext specification (endpoint_k, endpoint_dets) s = (Ok tt, s))
      as ->; [|done].
    unfold process_endpoint, mbind, M_bind, get_state.
    by rewrite bool_decide_eq_true_2.
  - rewrite filter_cons_True by done.
    cbn [for_each]. unfold mbind, M_bind.
    pose proof (process_endpoint_config s specification (endpoint_k, endpoint_dets)) as Hcfg.
    destruct (process_endpoint _ _ _ s) as [[[]|e] s1]; [|done].
    simpl in Hcfg. rewrite IH, Hcfg. done.
Qed.

(** C8. When the schema is a non-empty dict without a non-[None] [AnyValue]
    and the extractor returns metadata, the loop body uses no part of what
    the extractor returned: the one work unit it yields has the dataset name
    as id and, after the description, the tags and the link, the schema
    metadata [set_metadata] builds from [endpoint_dets["data"]] (a [KeyError]
    if there is no such key); report, sample cache and the log of calls are
    unchanged. *)
Theorem declared_schema_emits_from_data s specification endpoint_k endpoint_dets
    (entries : list (string * json)) (extracted : SchemaMetadata) :
  let dataset_name := dataset_name_of endpoint_k in
  endpoint_k ∉ ignore_endpoints (config s) →
  schema endpoint_dets = Some (JObj entries) →
  entries ≠ [] →
  is_None (dict_get "AnyValue" entries) = true →
  extract_metadata ext dataset_name (JObj entries) specification = Some extracted →
  process_endpoint ext specification (endpoint_k, endpoint_dets) s =
    match data endpoint_dets with
    | Some d =>
        (Ok tt,
         set_yielded
           (yielded s ++
              [ {| id := dataset_name;
                   mce :=
                     {| urn := "urn:li:dataset:(urn:li:dataPlatform:" +:+ platform s
                                 +:+ "," +:+ name (config s) +:+ "." +:+ dataset_name
                                 +:+ ",PROD)";
                        aspects :=
                          [ DatasetPropertiesClass (description endpoint_dets);
                            GlobalTagsClass (make_tag_urn ext <$> tags endpoint_dets);
                            InstitutionalMemoryClass
                              (clean_url ext
                                 (url (config s) +:+ url_basepath s +:+ endpoint_k))
                              "Link to call for the dataset." (time_time ext)
                              "urn:li:corpuser:etl";
                            SchemaMetadataAspect (set_metadata ext dataset_name d) ]
                     |} |} ]) s)
    | None => (Raise (KeyError "data"), s)
    end.
Proof.
  intros dataset_name Hout Hschema Hentries Hany Hextract.
  unfold process_endpoint, mbind, M_bind, get_state.
  rewrite bool_decide_eq_false_2 by done.
  cbv beta iota zeta delta [init_dataset].
  unfold declared_schema. rewrite Hschema.
  destruct entries as [|entry entries']; [done|].
  cbn [truthy]. run. fold dataset_name. rewrite Hany, Hextract.
  by destruct (data endpoint_dets).
Qed.

(** The loop body either ends without a request, a warning or a change of the
    sample cache, or it is [sample_endpoint] run on the state it started
    from. *)
Lemma process_endpoint_cases s specification endpoint_k endpoint_dets :
  let r := process_endpoint ext specification (endpoint_k, endpoint_dets) s in
  (root_dataset_samples r.2 = root_dataset_samples s ∧
   calls r.2 = calls s ∧ report r.2 = report s) ∨
  r = sample_endpoint ext endpoint_k
        (init_dataset ext s endpoint_k endpoint_dets).1 (dataset_name_of endpoint_k) s.
Proof.
  unfold process_endpoint, mbind, M_bind, get_state.
  destruct (bool_decide _); [by left|].
  cbv beta iota zeta delta [init_dataset].
  match goal with
  | |- context [declared_schema ?e ?sp ?d ?snap ?n s] =>
      pose proof (declared_schema_frame s sp d snap n) as (Hcache & Hcalls & Hreport & _);
      pose proof (declared_schema_fall_through s sp d snap n) as Hfall;
      destruct (declared_schema e sp d snap n s) as [[[]|e'] s1]
  end; simpl in Hcache, Hcalls, Hreport; try (by left).
  rewrite (Hfall s1 eq_refl).
  destruct (data endpoint_dets) as [d|]; [destruct (truthy d); [by left|]|]; by right.
Qed.

(** The sample cache across [sample_endpoint]. *)
Lemma sample_endpoint_cache s endpoint_k dataset_snapshot :
  let s' := (sample_endpoint ext endpoint_k dataset_snapshot
               (dataset_name_of endpoint_k) s).2 in
  root_dataset_samples s' = root_dataset_samples s ∨
  (PyStr.contains "{" endpoint_k = false ∧
   let tot_url :=
     clean_url ext (url (config s) +:+ url_basepath s +:+ endpoint_k) in
   let response := request_call ext tot_url (endpoint_credentials (config s)) in
   calls s' = calls s ++ [CallRequest tot_url (endpoint_credentials (config s))] ∧
   status_code response = 200 ∧
   root_dataset_samples s' =
     <[dataset_name_of endpoint_k :=
         (extract_fields ext response (dataset_name_of endpoint_k)).2]>
       (root_dataset_samples s)).
Proof.
  destruct (fetched_url ext s endpoint_k) as [e|tot_url] eqn:Hurl.
  { rewrite (sample_endpoint_raises _ _ _ _ _ Hurl). by left. }
  rewrite (sample_endpoint_fetch _ _ _ _ _ Hurl). cbv zeta.
  unfold after_response, report_bad_response.
  destruct (decide _) as [H200|_].
  2:{ left. by destruct (codes_mapping !! _). }
  unfold fetched_url in Hurl.
  destruct (PyStr.contains "{" endpoint_k) eqn:Hbrace; simpl in *.
  { left. by destruct (truthy _). }
  injection Hurl as <-. right. split; [done|].
  by destruct (truthy _).
Qed.

(** X21. Over the whole loop: a dataset name whose cache entry changed is the
    name of a listed path without placeholder. *)
Lemma crawl_cache_frame s specification
    (url_endpoints : list (string * endpoint_dets)) (dataset_name : string) :
  let s' := (for_each (process_endpoint ext specification) url_endpoints s).2 in
  root_dataset_samples s' !! dataset_name = root_dataset_samples s !! dataset_name ∨
  ∃ endpoint_k endpoint_dets,
    (endpoint_k, endpoint_dets) ∈ url_endpoints ∧
    PyStr.contains "{" endpoint_k = false ∧
    dataset_name = dataset_name_of endpoint_k.
Proof.
  revert s. induction url_endpoints as [|[endpoint_k endpoint_dets] rest IH]; intros s.
  { by left. }
  cbn [for_each]. unfold mbind, M_bind.
  assert (∀ s1, (process_endpoint ext specification (endpoint_k, endpoint_dets) s).2 = s1 →
    root_dataset_samples s1 !! dataset_name = root_dataset_samples s !! dataset_name ∨
    (PyStr.contains "{" endpoint_k = false ∧ dataset_name = dataset_name_of endpoint_k))
    as Hone.
  { intros s1 <-.
    destruct (process_endpoint_cases s specification endpoint_k endpoint_dets)
      as [[Hsame _]|Hsample]; [left; by rewrite Hsame|].
    rewrite Hsample.
    destruct (sample_endpoint_cache s endpoint_k
                (init_dataset ext s endpoint_k endpoint_dets).1)
      as [Hsame|(Hbrace & _ & _ & Hset)]; [left; by rewrite Hsame|].
    rewrite Hset.
    destruct (decide (dataset_name = dataset_name_of endpoint_k)) as [->|Hne].
    - by right.
    - left. by rewrite lookup_insert_ne. }
  destruct (process_endpoint _ _ _ s) as [[[]|e] s1]; simpl in *.
  - destruct (IH s1) as [Heq|(k & d & Hin & Hbrace & Hname)].
    + rewrite Heq. destruct (Hone s1 eq_refl) as [?|[??]]; [by left|].
      right. exists endpoint_k, endpoint_dets. split_and!; [left|done|done].
    + right. exists k, d. split_and!; [by right|done|done].
  - destruct (Hone s1 eq_refl) as [?|[??]]; [by left|].
    right. exists endpoint_k, endpoint_dets. split_and!; [left|done|done].
Qed.

(** C5. Whatever the loop body does for an endpoint, the sample cache is
    afterwards either the one before, or the one before with the dataset name
    of the endpoint set to the sample of its response; the latter only for a
    path without placeholder whose own url was requested and answered 200.
    A guessed or forced url thus never changes the cache. *)
Theorem sample_cache_frame s specification endpoint_k endpoint_dets :
  let s' := (process_endpoint ext specification (endpoint_k, endpoint_dets) s).2 in
  root_dataset_samples s' = root_dataset_samples s ∨
  (PyStr.contains "{" endpoint_k = false ∧
   let tot_url :=
     clean_url ext (url (config s) +:+ url_basepath s +:+ endpoint_k) in
   let response := request_call ext tot_url (endpoint_credentials (config s)) in
   calls s' = calls s ++ [CallRequest tot_url (endpoint_credentials (config s))] ∧
   status_code response = 200 ∧
   root_dataset_samples s' =
     <[dataset_name_of endpoint_k :=
         (extract_fields ext response (dataset_name_of endpoint_k)).2]>
       (root_dataset_samples s)).
Proof.
  cbv zeta.
  destruct (process_endpoint_cases s specification endpoint_k endpoint_dets)
    as [(Hcache & _)|Hsample].
  - by left.
  - rewrite Hsample.
    destruct (sample_endpoint_cache s endpoint_k
                (init_dataset ext s endpoint_k endpoint_dets).1)
      as [Hsame|(Hbrace & Hcalls & H200 & Hset)].
    + by left.
    + right. by split_and!.
Qed.

End Crawl.

(** ** The properties on concrete crawls *)

Section Runs.

Import Demo.

Lemma no_fields_still_emitted_witness :
  let w := world [] [] [("http://api/v1/users", status 200)] in
  ∃ s' wu,
    process_endpoint w spec_v1 ("/users", plain "all users") (loaded cfg) = (Ok tt, s') ∧
    yielded s' = [wu] ∧
    id wu = "users" ∧
    urn (mce wu) = "urn:li:dataset:(urn:li:dataPlatform:OpenApi,shop.users,PROD)" ∧
    aspects (mce wu) =
      [ DatasetPropertiesClass "all users";
        GlobalTagsClass [];
        InstitutionalMemoryClass "http://api/v1/users" "Link to call for the dataset."
          0 "urn:li:corpuser:etl";
        SchemaMetadataAspect ("users", JArr []) ] ∧
    report s' = [("/users", "No Fields")].
Proof.
  intros w.
  apply (no_fields_still_emitted w (loaded cfg) spec_v1 "/users" (plain "all users")
           "http://api/v1/users"); reflexivity.
Defined.

Lemma unclassified_status_raises_witness :
  let w := world [] [] [("http://api/v1/users", status 201)] in
  let snap := (init_dataset w (loaded cfg) "/users" (plain "all users")).1 in
  sample_endpoint w "/users" snap "users" (loaded cfg) =
    (Raise (Exception "Unable to retrieve endpoint, response code 201, key /users"),
     set_calls [CallRequest "http://api/v1/users" (BasicAuth "ada" "pw")] (loaded cfg)).
Proof.
  intros w snap.
  apply (unclassified_status_raises w (loaded cfg) "/users" snap "users"
           "http://api/v1/users"); [reflexivity|discriminate|reflexivity].
Defined.

(** C2, as stated, fails: the listing endpoint answers 201, a 2xx code other
    than 200, and the crawl ends with the exception of [report_bad_response];
    nothing is yielded and the next endpoint is never requested. *)
Lemma status_201_aborts_crawl :
  let w := world [("/users", plain "all users"); ("/pets", plain "all pets")] []
             [("http://api/v1/users", status 201); ("http://api/v1/pets", ok_users)] in
  let r := get_workunits_internal w (init_source cfg "OpenApi") in
  status_code (request_call w "http://api/v1/users" (BasicAuth "ada" "pw")) = 201 ∧
  r.1 = Raise (Exception "Unable to retrieve endpoint, response code 201, key /users") ∧
  yielded r.2 = [] ∧
  calls r.2 = [CallGetSwagJson "http://api" (BasicAuth "ada" "pw") "";
               CallRequest "http://api/v1/users" (BasicAuth "ada" "pw")].
Proof. vm_compute. repeat split. Qed.

(** C1 on a concrete crawl: [/users] answers 404 and [/pets] answers 200. The
    crawl goes on and yields the work unit of [/pets] only, but the report
    stays empty: the reason looked up for 404 is never reported. *)
Lemma status_404_leaves_report_empty :
  let w := world [("/users", plain "all users"); ("/pets", plain "all pets")] []
             [("http://api/v1/users", status 404); ("http://api/v1/pets", ok_users)] in
  let r := get_workunits_internal w (init_source cfg "OpenApi") in
  codes_mapping !! 404 =
    Some "Unable to find an example for endpoint. Please add it to the list of forced examples." ∧
  r.1 = Ok tt ∧
  id <$> yielded r.2 = ["pets"] ∧
  report r.2 = [].
Proof. vm_compute. repeat split. Qed.

Lemma guessing_is_not_guarded_witness :
  let w := world [] [] [("http://api/v1/users", ok_users)] in
  for_each (process_endpoint w spec_v1)
    [("/users/{id}", plain "one user"); ("/users", plain "all users")] (loaded cfg)
  = (Raise (Foreign "UnresolvableParameterError"), loaded cfg).
Proof.
  intros w.
  exact (guessing_is_not_guarded w (loaded cfg) spec_v1 [("/users", plain "all users")]
           "/users/{id}" (plain "one user") eq_refl eq_refl eq_refl).
Defined.

(** C3, as stated, fails: [/users/{id}] comes first, so the sample cache holds
    nothing to guess from and the resolution fails; the exception ends the
    crawl, no warning is reported and [/users] is never requested. *)
Lemma unresolvable_placeholder_aborts_crawl :
  let w := world [("/users/{id}", plain "one user"); ("/users", plain "all users")] []
             [("http://api/v1/users", ok_users)] in
  let r := get_workunits_internal w (init_source cfg "OpenApi") in
  try_guessing w "/users/{id}" ∅ = inl (Foreign "UnresolvableParameterError") ∧
  r.1 = Raise (Foreign "UnresolvableParameterError") ∧
  report r.2 = [] ∧
  yielded r.2 = [] ∧
  calls r.2 = [CallGetSwagJson "http://api" (BasicAuth "ada" "pw") ""].
Proof. vm_compute. repeat split. Qed.

Lemma ignored_endpoint_untouched_witness :
  let w := world [] [] [] in
  "/internal" ∈ ignore_endpoints (config (loaded (cfg_ignoring ["/internal"]))) ∧
  process_endpoint w spec_v1 ("/internal", plain "not for the catalog")
    (loaded (cfg_ignoring ["/internal"]))
  = (Ok tt, loaded (cfg_ignoring ["/internal"])).
Proof.
  intros w.
  assert ("/internal" ∈ ignore_endpoints (config (loaded (cfg_ignoring ["/internal"]))))
    as Hin by (simpl; apply list_elem_of_here).
  split; [exact Hin|].
  exact (ignored_endpoint_untouched w (loaded (cfg_ignoring ["/internal"])) spec_v1
           "/internal" (plain "not for the catalog") Hin).
Defined.

(** C6, as stated, fails: a warning caught around [get_endpoints] names the
    ignored path [/internal] and is in the report all the same. *)
Lemma ignored_endpoint_still_warned :
  let w := world [("/internal", plain "not for the catalog"); ("/users", plain "all users")]
             ["Malformed operation --- /internal"]
             [("http://api/v1/users", ok_users)] in
  let r := get_workunits_internal w (init_source (cfg_ignoring ["/internal"]) "OpenApi") in
  ignore_endpoints (config r.2) = ["/internal"] ∧
  r.1 = Ok tt ∧
  id <$> yielded r.2 = ["users"] ∧
  report r.2 = [("/internal", "Malformed operation")].
Proof. vm_compute. repeat split. Qed.

Lemma declared_schema_emits_from_data_witness :
  let w := world [] [] [] in
  process_endpoint w spec_v1 ("/users", declared) (loaded cfg) =
    (Ok tt,
     set_yielded
       [ {| id := "users";
            mce :=
              {| urn := "urn:li:dataset:(urn:li:dataPlatform:OpenApi,shop.users,PROD)";
                 aspects :=
                   [ DatasetPropertiesClass "users";
                     GlobalTagsClass ["urn:li:tag:people"];
                     InstitutionalMemoryClass "http://api/v1/users"
                       "Link to call for the dataset." 0 "urn:li:corpuser:etl";
                     SchemaMetadataAspect ("users", JArr [JStr "id"; JStr "name"]) ]
              |} |} ]
       (loaded cfg)).
Proof.
  intros w.
  apply (declared_schema_emits_from_data w (loaded cfg) spec_v1 "/users" declared
           [("type", JStr "object")] ("users", JObj [("type", JStr "object")])).
  - simpl. apply not_elem_of_nil.
  - reflexivity.
  - discriminate.
  - reflexivity.
  - reflexivity.
Defined.

(** Scenario A and B of the spec on the model: the listing seeds the cache, the
    guessed url is requested, and its response does not change the cache. *)
Example listing_then_guess :
  let w := world [("/users", plain "all users"); ("/users/{id}", plain "one user")] []
             [("http://api/v1/users", ok_users); ("http://api/v1/users/1", ok_users)] in
  let r := get_workunits_internal w (init_source cfg "OpenApi") in
  r.1 = Ok tt ∧
  id <$> yielded r.2 = ["users"; "users.{id}"] ∧
  map_to_list (root_dataset_samples r.2)
    = [("users", JObj [("id", JNum 1); ("name", JStr "Ada")])] ∧
  calls r.2 = [CallGetSwagJson "http://api" (BasicAuth "ada" "pw") "";
               CallRequest "http://api/v1/users" (BasicAuth "ada" "pw");
               CallRequest "http://api/v1/users/1" (BasicAuth "ada" "pw")].
Proof. vm_compute. repeat split. Qed.

End Runs.

(** * Further properties *)

(** ** Token acquisition in [get_swagger] *)

Section Acquisition.

Context {SchemaMetadata : Type} (ext : Collaborators SchemaMetadata).
Implicit Types s : source SchemaMetadata.

Ltac run :=
  unfold mbind, M_bind, mret, M_ret, get_state, modify, raise, log_call,
    py_assert, subscript in *; simpl in *.

Lemma descriptor_not_empty (d : gmap string string) (key value : string) :
  d !! key = Some value → bool_decide (d = ∅) = false.
Proof.
  intros Hkey. apply bool_decide_eq_false_2. intros ->.
  by rewrite lookup_empty in Hkey.
Qed.

(** X2. When [get_swagger] returns, the document is the one loaded with the
    credentials the configuration ends up with (the token it now holds, if
    any, the username and password otherwise); that load is the last call
    made, after at most one call for a token; nothing but the token of the
    configuration and the log of calls has changed. *)
Theorem get_swagger_loads_with_final_credentials s s' (specification : Specification) :
  get_swagger ext s = (Ok specification, s') →
  let self := config s in
  let auth := swagger_credentials self (config s') in
  specification = get_swag_json ext (url self) auth (swagger_file self) ∧
  (∃ before : list call,
     calls s' = calls s ++ before ++ [CallGetSwagJson (url self) auth (swagger_file self)] ∧
     (before = [] ∧ config s' = self ∨
      ∃ tok_url method,
        token self = None ∧
        before = [CallGetTok (url self) (username self) (password self) tok_url method] ∧
        config s' = with_token
                      (Some (get_tok ext (url self) (username self) (password self)
                               tok_url method)) self)) ∧
  report s' = report s ∧ yielded s' = yielded s ∧
  root_dataset_samples s' = root_dataset_samples s ∧ url_basepath s' = url_basepath s.
Proof.
  unfold get_swagger, acquire_token, swagger_credentials. run.
  destruct (negb _ || _) eqn:Hcond.
  2:{ intros [= <- <-]. simpl.
      apply orb_false_iff in Hcond as [_ Hnone].
      destruct (token (config s)) eqn:Htok.
      { by rewrite bool_decide_eq_true_2 in Hnone by eauto. }
      split_and!; try done. exists []. split; [reflexivity|by left]. }
  destruct (token (config s)) as [t|] eqn:Htok.
  { intros [= <- <-]. simpl. rewrite Htok.
    split_and!; try done. exists []. split; [reflexivity|by left]. }
  clear Hcond.
  destruct (bool_decide (is_Some (get_token (config s) !! "url_complement")));
    simpl; [|done].
  destruct (get_token (config s) !! "request_type") as [request_type|]; simpl; [|done].
  destruct (decide (request_type = "get")); simpl.
  - destruct (get_token (config s) !! "url_complement") as [uc|]; simpl; [|done].
    destruct (PyStr.contains "{username}" uc); simpl; [|done].
    destruct (PyStr.contains "{password}" uc); simpl; [|done].
    intros [= <- <-]. simpl. split_and!; try done.
    eexists [_]. split; [by rewrite <- app_assoc|].
    right. by eexists _, _.
  - destruct (decide (request_type = "post")); simpl; [|done].
    destruct (get_token (config s) !! "url_complement") as [uc|]; simpl; [|done].
    intros [= <- <-]. simpl. split_and!; try done.
    eexists [_]. split; [by rewrite <- app_assoc|].
    right. by eexists _, _.
Qed.

(** X3. Acquisition by GET: with no token and a descriptor whose
    [url_complement] holds both placeholders, the token url is the
    [url_complement] with [{username}] and then [{password}] replaced, the
    token returned for it is stored in the configuration, and the document is
    loaded with that token. *)
Theorem get_style_acquisition s (url_complement : string) :
  let self := config s in
  let tok_url := PyStr.replace "{password}" (password self)
                   (PyStr.replace "{username}" (username self) url_complement) in
  let tok := get_tok ext (url self) (username self) (password self) tok_url "get" in
  token self = None →
  get_token self !! "request_type" = Some "get" →
  get_token self !! "url_complement" = Some url_complement →
  PyStr.contains "{username}" url_complement = true →
  PyStr.contains "{password}" url_complement = true →
  get_swagger ext s =
    (Ok (get_swag_json ext (url self) (Bearer tok) (swagger_file self)),
     set_calls
       (calls s ++ [CallGetTok (url self) (username self) (password self) tok_url "get";
                    CallGetSwagJson (url self) (Bearer tok) (swagger_file self)])
       (set_config (with_token (Some tok) self) s)).
Proof.
  cbv zeta. intros Htok Htype Hurl Huser Hpass.
  unfold get_swagger, acquire_token. run.
  rewrite (descriptor_not_empty _ _ _ Htype), Htok. simpl.
  rewrite Hurl, Htype. rewrite bool_decide_eq_true_2 by eauto. run.
  rewrite Huser, Hpass. simpl. by rewrite <- app_assoc.
Qed.

(** X4. Acquisition by POST: the [url_complement] is used as the token url as
    it stands; no placeholder is looked for or replaced. *)
Theorem post_style_acquisition s (url_complement : string) :
  let self := config s in
  let tok := get_tok ext (url self) (username self) (password self) url_complement "post" in
  token self = None →
  get_token self !! "request_type" = Some "post" →
  get_token self !! "url_complement" = Some url_complement →
  get_swagger ext s =
    (Ok (get_swag_json ext (url self) (Bearer tok) (swagger_file self)),
     set_calls
       (calls s ++ [CallGetTok (url self) (username self) (password self)
                      url_complement "post";
                    CallGetSwagJson (url self) (Bearer tok) (swagger_file self)])
       (set_config (with_token (Some tok) self) s)).
Proof.
  cbv zeta. intros Htok Htype Hurl.
  unfold get_swagger, acquire_token. run.
  rewrite (descriptor_not_empty _ _ _ Htype), Htok. simpl.
  rewrite Hurl, Htype. rewrite bool_decide_eq_true_2 by eauto. run.
  by rewrite <- app_assoc.
Qed.

(** X5. A descriptor without [url_complement] is refused with the
    [AssertionError] about GET requests whatever its [request_type] is, POST
    included, before the [request_type] is read. *)
Theorem descriptor_without_url_complement s :
  token (config s) = None →
  get_token (config s) ≠ ∅ →
  get_token (config s) !! "url_complement" = None →
  get_swagger ext s =
    (Raise (AssertionError
       "When 'request_type' is set to 'get', an url_complement is needed for the request."),
     s).
Proof.
  intros Htok Hdescr Hurl.
  unfold get_swagger, acquire_token. run.
  rewrite (bool_decide_eq_false_2 _ Hdescr), Htok. simpl.
  rewrite Hurl. rewrite bool_decide_eq_false_2; [done|]. by intros [? ?].
Qed.

(** X6. With an [url_complement] but a [request_type] that is missing or is
    neither ["get"] nor ["post"], [get_swagger] raises a [KeyError]: on the
    key when it is missing, with the message about accepted methods
    otherwise. No call is made. *)
Theorem unsupported_request_type s (url_complement : string) :
  token (config s) = None →
  get_token (config s) !! "url_complement" = Some url_complement →
  get_token (config s) !! "request_type" ≠ Some "get" →
  get_token (config s) !! "request_type" ≠ Some "post" →
  get_swagger ext s =
    (Raise (KeyError
       match get_token (config s) !! "request_type" with
       | None => "request_type"
       | Some _ => "This tool accepts only 'get' and 'post' as method for getting tokens"
       end),
     s).
Proof.
  intros Htok Hurl Hget Hpost.
  unfold get_swagger, acquire_token. run.
  rewrite (descriptor_not_empty _ _ _ Hurl), Htok. simpl.
  rewrite Hurl. rewrite bool_decide_eq_true_2 by eauto. run.
  destruct (get_token (config s) !! "request_type") as [request_type|]; simpl; [|done].
  destruct (decide (request_type = "get")) as [->|_]; [done|].
  by destruct (decide (request_type = "post")) as [->|_].
Qed.

End Acquisition.

(** ** Status codes *)

Section StatusCodes.

Context {SchemaMetadata : Type}.
Implicit Types s : source SchemaMetadata.

(** X7. [report_bad_response] never changes the state, and it returns normally
    for exactly the codes 400, 403, 404, 500 and 504; for every other code,
    200 included, it raises. *)
Theorem report_bad_response_returns_iff s (code : Z) (key : string) :
  (report_bad_response code key s).2 = s ∧
  ((report_bad_response code key s).1 = Ok tt ↔ code ∈ [400; 403; 404; 500; 504]).
Proof.
  unfold report_bad_response.
  destruct (codes_mapping !! code) as [reason|] eqn:Hcode; simpl.
  - split; [done|]. split; [intros _|done].
    apply elem_of_list_to_map_2 in Hcode.
    repeat (apply elem_of_cons in Hcode as [[= -> _]|Hcode]; [set_solver|]).
    by apply elem_of_nil in Hcode.
  - split; [done|]. split; [done|]. intros Hin.
    by apply not_elem_of_list_to_map_2 in Hcode.
Qed.

End StatusCodes.

(** ** Dataset names and paths *)

Lemma prefix_char (a c : ascii) (s : string) :
  String.prefix (String a EmptyString) (String c s) = bool_decide (a = c).
Proof.
  cbn [String.prefix]. destruct (ascii_dec a c) as [->|Hne].
  - rewrite bool_decide_eq_true_2 by done. by destruct s.
  - by rewrite bool_decide_eq_false_2.
Qed.

Lemma replace_dot_cons (c : ascii) (s : string) :
  PyStr.replace "." "/" (String c s) =
  if String.prefix "." (String c s)
  then String "/"%char (PyStr.replace "." "/" s)
  else String c (PyStr.replace "." "/" s).
Proof. reflexivity. Qed.

Lemma last_cons (c : ascii) (s : string) :
  s ≠ "" → PyStr.last (String c s) = PyStr.last s.
Proof. by destruct s. Qed.

Lemma replace_slash_undone (y : string) :
  PyStr.contains "." y = false →
  PyStr.replace "." "/" (PyStr.replace "/" "." y) = y.
Proof.
  induction y as [|c y IH]; [done|].
  cbn [PyStr.contains]. intros [Hc Hy]%orb_false_iff.
  rewrite replace_slash_cons. rewrite prefix_char in Hc |- *.
  destruct (decide ("/"%char = c)) as [<-|Hslash].
  - rewrite bool_decide_eq_true_2 by done.
    rewrite replace_dot_cons, prefix_char.
    rewrite bool_decide_eq_true_2 by done. by rewrite IH.
  - rewrite bool_decide_eq_false_2 by done.
    rewrite replace_dot_cons, prefix_char, Hc. by rewrite IH.
Qed.

Lemma replace_slash_last (y : string) :
  PyStr.contains "." y = false →
  PyStr.last y ≠ Some "/"%char →
  PyStr.last (PyStr.replace "/" "." y) ≠ Some "."%char.
Proof.
  induction y as [|c y IH]; [done|].
  cbn [PyStr.contains]. intros [Hc Hy]%orb_false_iff Hlast.
  rewrite prefix_char in Hc. apply bool_decide_eq_false in Hc.
  destruct y as [|c' y'].
  - rewrite replace_slash_cons, prefix_char. simpl in Hlast.
    destruct (decide ("/"%char = c)) as [<-|Hslash]; [done|].
    rewrite bool_decide_eq_false_2 by done. simpl. congruence.
  - rewrite last_cons in Hlast by done.
    assert (PyStr.replace "/" "." (String c' y') ≠ "") as Hne.
    { intros E. apply (f_equal String.length) in E.
      by rewrite replace_slash_length in E. }
    rewrite replace_slash_cons.
    destruct (String.prefix _ _); rewrite last_cons by done; by apply IH.
Qed.

(** X8. A dataset name never contains the path separator, whatever the
    endpoint key is. *)
Theorem dataset_name_has_no_slash (endpoint_k : string) :
  PyStr.contains "/" (dataset_name_of endpoint_k) = false.
Proof.
  unfold dataset_name_of. cbv zeta.
  destruct (0 <? _)%nat; [|done].
  pose proof (replace_slash_clean (PyStr.tail endpoint_k)) as Hclean.
  destruct (decide _); [by apply init_no_slash|done].
Qed.

(** X9. The path can be read back from the dataset name: for a path that is
    ["/"] followed by a non-empty text without dot and without a trailing
    separator, replacing the dots of the dataset name by separators gives
    that text again. Two such paths with the same dataset name are equal. *)
Theorem dataset_name_round_trip (y : string) :
  y ≠ "" →
  PyStr.contains "." y = false →
  PyStr.last y ≠ Some "/"%char →
  PyStr.replace "." "/" (dataset_name_of ("/" +:+ y)) = y.
Proof.
  intros Hne Hdot Hlast.
  unfold dataset_name_of. cbv zeta.
  change (PyStr.tail ("/" +:+ y)) with y.
  rewrite replace_slash_length.
  destruct y as [|c y]; [done|].
  change (0 <? String.length (String c y))%nat with true. cbv iota.
  destruct (decide _) as [Hdotted|_].
  - by destruct (replace_slash_last _ Hdot Hlast).
  - by apply replace_slash_undone.
Qed.

Lemma dataset_name_round_trip_witness :
  PyStr.replace "." "/" (dataset_name_of ("/" +:+ "users/active")) = "users/active".
Proof. apply (dataset_name_round_trip "users/active"); [done|done|]. vm_compute. discriminate. Defined.

Lemma init_last (r : string) (c : ascii) :
  PyStr.last r = Some c → r = PyStr.init r +:+ String c "".
Proof.
  induction r as [|a r IH]; [done|].
  destruct r as [|a' r'].
  - by intros [= ->].
  - rewrite last_cons by done. intros Hlast.
    change (PyStr.init (String a (String a' r')))
      with (String a (PyStr.init (String a' r'))).
    change (String a (String a' r') =
            String a (PyStr.init (String a' r') +:+ String c "")).
    by rewrite <- (IH Hlast).
Qed.

(** What a text was before its separators became dots. *)
Lemma replace_slash_inv (t : string) (a : ascii) (r : string) :
  PyStr.replace "/" "." t = String a r →
  ∃ c t', t = String c t' ∧ PyStr.replace "/" "." t' = r ∧
          (c = a ∨ c = "/"%char ∧ a = "."%char).
Proof.
  destruct t as [|c t']; [done|].
  rewrite replace_slash_cons, prefix_char.
  destruct (decide ("/"%char = c)) as [<-|Hne].
  - rewrite bool_decide_eq_true_2 by done. intros [= <- <-]. eauto 10.
  - rewrite bool_decide_eq_false_2 by done. intros [= <- <-]. eauto 10.
Qed.

Lemma replace_slash_inv_nil (t : string) :
  PyStr.replace "/" "." t = "" → t = "".
Proof.
  intros E. apply (f_equal String.length) in E.
  rewrite replace_slash_length in E. by destruct t.
Qed.

(** X10. The name ["root"] stands in for an empty remainder only, and not for
    every empty name. The dataset name is empty exactly for the keys whose
    text after the first character is ["/"] or ["."], since the single dot
    left of them is then stripped. It is ["root"] exactly when nothing follows
    the first character, or when what follows is itself ["root"], ["root/"]
    or ["root."]. *)
Theorem dataset_name_empty_iff (endpoint_k : string) :
  (dataset_name_of endpoint_k = "" ↔
   PyStr.tail endpoint_k = "/" ∨ PyStr.tail endpoint_k = ".") ∧
  (dataset_name_of endpoint_k = "root" ↔
   PyStr.tail endpoint_k = "" ∨ PyStr.tail endpoint_k = "root" ∨
   PyStr.tail endpoint_k = "root/" ∨ PyStr.tail endpoint_k = "root.").
Proof.
  unfold dataset_name_of. cbv zeta. split.
  - destruct (PyStr.tail endpoint_k) as [|c [|c' t]].
    + split; [done|]. by intros [?|?].
    + rewrite replace_slash_cons, prefix_char.
      destruct (decide ("/"%char = c)) as [<-|Hslash].
      * split; [by left|done].
      * rewrite bool_decide_eq_false_2 by done.
        change (PyStr.replace "/" "." "") with "". simpl.
        destruct (decide (Some c = Some "."%char)) as [[= ->]|Hdot].
        -- split; [by right|done].
        -- split; [done|]. intros [[= ->]|[= ->]]; done.
    + split; [|by intros [?|?]].
      intros E. exfalso. revert E.
      pose proof (replace_slash_length (String c (String c' t))) as Hlen.
      destruct (PyStr.replace "/" "." (String c (String c' t))) as [|a [|a' r]];
        simpl in Hlen; [lia|lia|].
      simpl. by destruct (decide _).
  - split.
    + generalize (PyStr.tail endpoint_k). intros t.
      pose proof (replace_slash_length t) as Hlen.
      destruct (0 <? _)%nat eqn:Hpos.
      2:{ intros _. left. apply Nat.ltb_ge in Hpos.
          destruct t; [done|simpl in *; lia]. }
      destruct (decide _) as [Hdot|_].
      * intros Hinit. apply init_last in Hdot. rewrite Hinit in Hdot.
        change ("root" +:+ ".") with "root." in Hdot.
        do 4 (apply replace_slash_inv in Hdot as (? & ? & ? & Hdot & Hc);
              destruct Hc as [Hc|[_ Hc]]; [|discriminate Hc]; subst).
        apply replace_slash_inv in Hdot as (? & ? & ? & Hdot & Hc).
        apply replace_slash_inv_nil in Hdot.
        destruct Hc as [Hc|[Hc _]]; subst; auto.
      * intros Hroot.
        do 4 (apply replace_slash_inv in Hroot as (? & ? & ? & Hroot & Hc);
              destruct Hc as [Hc|[_ Hc]]; [|discriminate Hc]; subst).
        apply replace_slash_inv_nil in Hroot. subst. auto.
    + intros [H|[H|[H|H]]]; rewrite H; reflexivity.
Qed.

(** ** One endpoint, and the loop over all of them *)

Section Loop.

Context {SchemaMetadata : Type} (ext : Collaborators SchemaMetadata).
Implicit Types s : source SchemaMetadata.
Implicit Types dataset_snapshot : @DatasetSnapshot SchemaMetadata.

Ltac run :=
  unfold mbind, M_bind, mret, M_ret, get_state, modify, raise, log_call,
    report_warning, emit, yield in *; simpl in *.

(** The three ways the block of the declared schema ends. *)
Lemma declared_schema_result s specification endpoint_dets dataset_snapshot dataset_name :
  let r := declared_schema ext specification endpoint_dets
             dataset_snapshot dataset_name s in
  r = (Ok false, s) ∨ (∃ e, r = (Raise e, s)) ∨
  (∃ md, r = (Ok true,
              set_yielded
                (yielded s ++
                   [build_wu (append_aspect (SchemaMetadataAspect md) dataset_snapshot)
                      dataset_name]) s)).
Proof.
  unfold declared_schema. run.
  destruct (schema endpoint_dets) as [sch|]; [|by left].
  destruct (truthy sch); [|by left].
  destruct sch; try (right; left; by eexists).
  destruct (is_None _); [|by left].
  destruct (extract_metadata _ _ _ _); [|by left].
  destruct (data endpoint_dets); right; [right|left]; by eexists.
Qed.

(** The routes of the loop body: the endpoint is ignored; or the block of
    the declared schema raises; or a work unit is built without any request;
    or the endpoint is sampled. *)
Lemma process_endpoint_routes s specification endpoint_k endpoint_dets :
  let item := (endpoint_k, endpoint_dets) in
  let r := process_endpoint ext specification item s in
  ((endpoint_k ∈ ignore_endpoints (config s)) ∧ r = (Ok tt, s)) ∨
  ((endpoint_k ∉ ignore_endpoints (config s)) ∧
    ((∃ e, r = (Raise e, s)) ∨
     (∃ md, r = (Ok tt, set_yielded (yielded s ++ [unit_of ext s item md]) s)) ∨
     r = sample_endpoint ext endpoint_k (init_dataset ext s endpoint_k endpoint_dets).1
           (dataset_name_of endpoint_k) s)).
Proof.
  cbv zeta. unfold unit_of, process_endpoint, mbind, M_bind, get_state.
  case_bool_decide as Hign; [by left|]. right. split; [done|].
  cbv beta iota zeta delta [init_dataset]. cbn [fst snd].
  match goal with
  | |- context [declared_schema ?e ?sp ?d ?snap ?n s] =>
      destruct (declared_schema_result s sp d snap n) as [Hr|[[e' Hr]|[md Hr]]];
      rewrite Hr
  end.
  - destruct (data endpoint_dets) as [d|]; [destruct (truthy d)|].
    + right; left. by eexists.
    + by right; right.
    + by right; right.
  - left. by eexists.
  - right; left. by eexists.
Qed.

(** What [sample_endpoint] leaves behind: one logged request at most, and
    either nothing else, or one work unit with an optional "No Fields"
    warning. *)
Lemma sample_endpoint_effect s endpoint_k dataset_snapshot dataset_name :
  let r := sample_endpoint ext endpoint_k dataset_snapshot dataset_name s in
  (calls r.2 = calls s ∨
   ∃ tot_url, calls r.2 = calls s ++ [CallRequest tot_url (endpoint_credentials (config s))]) ∧
  (yielded r.2 = yielded s ∧ report r.2 = report s ∧
   root_dataset_samples r.2 = root_dataset_samples s
   ∨ r.1 = Ok tt ∧
     (∃ md, yielded r.2 =
              yielded s ++
                [build_wu (append_aspect (SchemaMetadataAspect md) dataset_snapshot)
                   dataset_name]) ∧
     (report r.2 = report s ∨ report r.2 = report s ++ [(endpoint_k, "No Fields")])).
Proof.
  destruct (fetched_url ext s endpoint_k) as [e|tot_url] eqn:Hurl.
  { rewrite (sample_endpoint_raises _ _ _ _ _ _ Hurl). split; by left. }
  rewrite (sample_endpoint_fetch _ _ _ _ _ _ Hurl). cbv zeta.
  unfold after_response, report_bad_response.
  destruct (decide _) as [H200|_].
  - destruct (PyStr.contains "{" endpoint_k), (truthy _); simpl;
      (split; [right; by exists tot_url|]);
      right; (split; [done|]); (split; [by eexists|]); auto.
  - split; [right; exists tot_url; by destruct (codes_mapping !! _)|].
    left. by destruct (codes_mapping !! _).
Qed.

(** What the loop body leaves behind, over all its routes. *)
Lemma process_endpoint_effect s specification endpoint_k endpoint_dets :
  let item := (endpoint_k, endpoint_dets) in
  let r := process_endpoint ext specification item s in
  config r.2 = config s ∧
  (calls r.2 = calls s ∨
   (endpoint_k ∉ ignore_endpoints (config s)) ∧
   ∃ tot_url, calls r.2 = calls s ++ [CallRequest tot_url (endpoint_credentials (config s))]) ∧
  (yielded r.2 = yielded s ∧ report r.2 = report s ∧
   root_dataset_samples r.2 = root_dataset_samples s
   ∨ (endpoint_k ∉ ignore_endpoints (config s)) ∧ r.1 = Ok tt ∧
     (∃ md, yielded r.2 = yielded s ++ [unit_of ext s item md]) ∧
     (report r.2 = report s ∨ report r.2 = report s ++ [(endpoint_k, "No Fields")])).
Proof.
  cbv zeta. split; [apply process_endpoint_config|].
  destruct (process_endpoint_routes s specification endpoint_k endpoint_dets)
    as [[_ Hr]|[Hout [[e Hr]|[[md Hr]|Hr]]]]; rewrite Hr; simpl.
  - split; by left.
  - split; by left.
  - split; [by left|]. right. split_and!; [done|done|by eexists|by left].
  - destruct (sample_endpoint_effect s endpoint_k
                (init_dataset ext s endpoint_k endpoint_dets).1
                (dataset_name_of endpoint_k)) as [Hcalls Hrest].
    split.
    + destruct Hcalls as [?|?]; [by left|by right].
    + destruct Hrest as [?|(? & ? & ?)]; [by left|right; by split_and!].
Qed.

(** X11. The work units come out in the order of the endpoints, one at most
    for each: the identifiers of the work units yielded by the loop are a
    subsequence of the dataset names of the endpoints that are not ignored. *)
Theorem crawl_yields_in_order s specification
    (url_endpoints : list (string * endpoint_dets)) :
  let r := for_each (process_endpoint ext specification) url_endpoints s in
  ∃ new,
    yielded r.2 = yielded s ++ new ∧
    id <$> new `sublist_of`
      ((λ item, dataset_name_of item.1) <$>
         filter (λ item, item.1 ∉ ignore_endpoints (config s)) url_endpoints).
Proof.
  cbv zeta. revert s.
  induction url_endpoints as [|[endpoint_k endpoint_dets] rest IH]; intros s.
  { exists []. split; [by rewrite app_nil_r|constructor]. }
  cbn [for_each]. unfold mbind, M_bind.
  pose proof (process_endpoint_effect s specification endpoint_k endpoint_dets)
    as (Hcfg & _ & Hstep). cbv zeta in Hcfg, Hstep.
  destruct (process_endpoint ext specification (endpoint_k, endpoint_dets) s)
    as [[[]|e] s1]; simpl in Hcfg, Hstep |- *.
  - destruct (IH s1) as (new & Hnew & Hsub). rewrite Hcfg in Hsub.
    destruct Hstep as [(Hsame & _)|(Hout & _ & [md Hone] & _)].
    + exists new. rewrite Hnew, Hsame. split; [done|].
      destruct (decide (endpoint_k ∈ ignore_endpoints (config s))).
      * rewrite filter_cons_False by (simpl; tauto). done.
      * rewrite filter_cons_True by done. by constructor.
    + eexists (_ :: new). rewrite Hnew, Hone, <- app_assoc. split; [done|].
      rewrite filter_cons_True by done. by constructor.
  - destruct Hstep as [(Hsame & _)|(_ & ? & _)]; [|done].
    exists []. rewrite Hsame, app_nil_r. split; [done|apply sublist_nil_l].
Qed.

(** X12. The only warnings the loop adds are "No Fields" warnings, one at
    most for each endpoint that is not ignored, under its key and in the order
    of the endpoints. *)
Theorem crawl_warnings_are_no_fields s specification
    (url_endpoints : list (string * endpoint_dets)) :
  let r := for_each (process_endpoint ext specification) url_endpoints s in
  ∃ new,
    report r.2 = report s ++ new ∧
    new `sublist_of`
      ((λ item, (item.1, "No Fields")) <$>
         filter (λ item, item.1 ∉ ignore_endpoints (config s)) url_endpoints).
Proof.
  cbv zeta. revert s.
  induction url_endpoints as [|[endpoint_k endpoint_dets] rest IH]; intros s.
  { exists []. split; [by rewrite app_nil_r|constructor]. }
  cbn [for_each]. unfold mbind, M_bind.
  pose proof (process_endpoint_effect s specification endpoint_k endpoint_dets)
    as (Hcfg & _ & Hstep). cbv zeta in Hcfg, Hstep.
  destruct (process_endpoint ext specification (endpoint_k, endpoint_dets) s)
    as [[[]|e] s1]; simpl in Hcfg, Hstep |- *.
  - destruct (IH s1) as (new & Hnew & Hsub). rewrite Hcfg in Hsub.
    assert (report s1 = report s ∨
            (endpoint_k ∉ ignore_endpoints (config s)) ∧
            report s1 = report s ++ [(endpoint_k, "No Fields")]) as [Hsame|[Hout Hone]].
    { destruct Hstep as [(_ & ? & _)|(? & _ & _ & [?|?])]; auto. }
    + exists new. rewrite Hnew, Hsame. split; [done|].
      destruct (decide (endpoint_k ∈ ignore_endpoints (config s))).
      * rewrite filter_cons_False by (simpl; tauto). done.
      * rewrite filter_cons_True by done. by constructor.
    + eexists (_ :: new). rewrite Hnew, Hone, <- app_assoc. split; [done|].
      rewrite filter_cons_True by done. by constructor.
  - destruct Hstep as [(_ & Hsame & _)|(_ & ? & _)]; [|done].
    exists []. rewrite Hsame, app_nil_r. split; [done|apply sublist_nil_l].
Qed.

(** X13. The loop makes one request at most for each endpoint that is not
    ignored, never asks for a token or the document again, and sends every
    request with the same credentials, those of the configuration it started
    with. *)
Theorem crawl_requests s specification
    (url_endpoints : list (string * endpoint_dets)) :
  let r := for_each (process_endpoint ext specification) url_endpoints s in
  ∃ urls : list string,
    calls r.2 =
      calls s ++ ((λ tot_url, CallRequest tot_url (endpoint_credentials (config s))) <$> urls) ∧
    (length urls ≤
       length (filter (λ item, item.1 ∉ ignore_endpoints (config s)) url_endpoints))%nat.
Proof.
  cbv zeta. revert s.
  induction url_endpoints as [|[endpoint_k endpoint_dets] rest IH]; intros s.
  { exists []. split; [by rewrite app_nil_r|done]. }
  cbn [for_each]. unfold mbind, M_bind.
  pose proof (process_endpoint_effect s specification endpoint_k endpoint_dets)
    as (Hcfg & Hstep & _). cbv zeta in Hcfg, Hstep.
  assert (length (filter (λ item, item.1 ∉ ignore_endpoints (config s)) rest) ≤
          length (filter (λ item, item.1 ∉ ignore_endpoints (config s))
                    ((endpoint_k, endpoint_dets) :: rest)))%nat as Hmono.
  { destruct (decide (endpoint_k ∈ ignore_endpoints (config s))).
    - by rewrite filter_cons_False by (simpl; tauto).
    - rewrite filter_cons_True by done. simpl. lia. }
  destruct (process_endpoint ext specification (endpoint_k, endpoint_dets) s)
    as [[[]|e] s1]; simpl in Hcfg, Hstep |- *.
  - destruct (IH s1) as (urls & Hcalls & Hlen). rewrite Hcfg in Hcalls, Hlen.
    destruct Hstep as [Hsame|(Hout & tot_url & Hone)].
    + exists urls. rewrite Hcalls, Hsame. split; [done|lia].
    + exists (tot_url :: urls). rewrite Hcalls, Hone, <- app_assoc. split; [done|].
      rewrite filter_cons_True by done. simpl. lia.
  - destruct Hstep as [Hsame|(Hout & tot_url & Hone)].
    + exists []. rewrite Hsame, app_nil_r. split; [done|simpl; lia].
    + exists [tot_url]. rewrite Hone. split; [done|].
      rewrite filter_cons_True by done. simpl. lia.
Qed.

(** X14. An endpoint on which the loop body raises leaves nothing behind: no
    work unit, no warning, no change of the sample cache or of the
    configuration. *)
Theorem failing_endpoint_leaves_no_trace s specification endpoint_k endpoint_dets
    (e : exn) :
  let r := process_endpoint ext specification (endpoint_k, endpoint_dets) s in
  r.1 = Raise e →
  yielded r.2 = yielded s ∧ report r.2 = report s ∧
  root_dataset_samples r.2 = root_dataset_samples s ∧ config r.2 = config s.
Proof.
  cbv zeta. intros Hraise.
  destruct (process_endpoint_effect s specification endpoint_k endpoint_dets)
    as (Hcfg & _ & [(? & ? & ?)|(_ & Hok & _)]); cbv zeta in *.
  - done.
  - rewrite Hok in Hraise. discriminate.
Qed.


(** X16. A declared schema that is an empty dict, or is marked [AnyValue], or
    from which the extractor gets nothing, counts for nothing: the loop body
    does what it does for the same endpoint without the ["schema"] key. *)
Theorem skipped_schema_is_no_schema s specification endpoint_k endpoint_dets
    (entries : list (string * json)) :
  schema endpoint_dets = Some (JObj entries) →
  entries = [] ∨
  is_None (dict_get "AnyValue" entries) = false ∨
  extract_metadata ext (dataset_name_of endpoint_k) (JObj entries) specification = None →
  process_endpoint ext specification (endpoint_k, endpoint_dets) s =
  process_endpoint ext specification (endpoint_k, without_schema endpoint_dets) s.
Proof.
  intros Hschema Hskip.
  unfold process_endpoint, declared_schema. run. rewrite Hschema.
  destruct (bool_decide _); [done|].
  destruct Hskip as [->|[Hany|Hextract]]; [done| |].
  - destruct entries as [|entry entries']; [done|]. cbn [truthy]. by rewrite Hany.
  - destruct entries as [|entry entries']; [done|]. cbn [truthy].
    destruct (is_None _); [|done]. by rewrite Hextract.
Qed.

Lemma declared_schema_other_cache s specification endpoint_dets
    dataset_snapshot dataset_name (samples : gmap string json) :
  declared_schema ext specification endpoint_dets dataset_snapshot dataset_name
    (set_root_dataset_samples samples s) =
  ((declared_schema ext specification endpoint_dets dataset_snapshot dataset_name s).1,
   set_root_dataset_samples samples
     (declared_schema ext specification endpoint_dets dataset_snapshot dataset_name s).2).
Proof.
  unfold declared_schema. run.
  destruct (schema endpoint_dets) as [sch|]; [|done].
  destruct (truthy sch); [|done].
  destruct sch; try done.
  destruct (is_None _); [|done].
  destruct (extract_metadata _ _ _ _); [|done].
  by destruct (data endpoint_dets).
Qed.

Lemma forced_sample_other_cache s endpoint_k dataset_snapshot dataset_name
    (attr_list : list string) (samples : gmap string json) :
  PyStr.contains "{" endpoint_k = true →
  forced_examples (config s) !! endpoint_k = Some attr_list →
  sample_endpoint ext endpoint_k dataset_snapshot dataset_name
    (set_root_dataset_samples samples s) =
  ((sample_endpoint ext endpoint_k dataset_snapshot dataset_name s).1,
   set_root_dataset_samples samples
     (sample_endpoint ext endpoint_k dataset_snapshot dataset_name s).2).
Proof.
  intros Hbrace Hforced.
  set (tot_url := clean_url ext (url (config s) +:+ url_basepath s
                                   +:+ compose_url_attr ext endpoint_k attr_list)).
  rewrite (sample_endpoint_fetch ext s _ _ _ tot_url)
    by (unfold fetched_url; by rewrite Hbrace, Hforced).
  rewrite (sample_endpoint_fetch ext (set_root_dataset_samples samples s) _ _ _ tot_url)
    by (unfold fetched_url; simpl; by rewrite Hbrace, Hforced).
  cbv zeta. rewrite Hbrace. unfold after_response, report_bad_response. simpl.
  destruct (decide _).
  - by destruct (truthy _).
  - by destruct (codes_mapping !! _).
Qed.

(** X17. With a forced example for a path with a placeholder, the sample
    cache plays no part: run from a state with any other cache, the loop body
    has the same outcome and leaves the same state but for that cache. *)
Theorem forced_example_ignores_cache s specification endpoint_k endpoint_dets
    (attr_list : list string) (samples : gmap string json) :
  let item := (endpoint_k, endpoint_dets) in
  PyStr.contains "{" endpoint_k = true →
  forced_examples (config s) !! endpoint_k = Some attr_list →
  process_endpoint ext specification item (set_root_dataset_samples samples s) =
    ((process_endpoint ext specification item s).1,
     set_root_dataset_samples samples (process_endpoint ext specification item s).2).
Proof.
  cbv zeta. intros Hbrace Hforced.
  unfold process_endpoint, mbind, M_bind, get_state. simpl.
  destruct (bool_decide _); [done|].
  cbv beta iota zeta delta [init_dataset]. simpl.
  rewrite declared_schema_other_cache.
  match goal with
  | |- context [declared_schema ?e ?sp ?d ?snap ?n s] =>
      pose proof (declared_schema_fall_through ext s sp d snap n) as Hfall;
      destruct (declared_schema e sp d snap n s) as [[[]|e'] s1]
  end; simpl; try done.
  rewrite (Hfall s1 eq_refl).
  destruct (data endpoint_dets) as [d|]; [destruct (truthy d); [done|]|];
    by apply forced_sample_other_cache with attr_list.
Qed.

(** X19. A listing seeds the cache: when the url of a path without
    placeholder answers 200, the sample of the response is what the cache
    afterwards holds under the dataset name, in place of any earlier one, and
    every other name keeps its entry. *)
Theorem listing_seeds_cache s endpoint_k dataset_snapshot dataset_name :
  let tot_url := clean_url ext (url (config s) +:+ url_basepath s +:+ endpoint_k) in
  let response := request_call ext tot_url (endpoint_credentials (config s)) in
  let s' := (sample_endpoint ext endpoint_k dataset_snapshot dataset_name s).2 in
  PyStr.contains "{" endpoint_k = false →
  status_code response = 200 →
  root_dataset_samples s' !! dataset_name
    = Some (extract_fields ext response dataset_name).2 ∧
  ∀ other, other ≠ dataset_name →
    root_dataset_samples s' !! other = root_dataset_samples s !! other.
Proof.
  cbv zeta. intros Hbrace H200.
  rewrite (sample_endpoint_fetch ext s endpoint_k dataset_snapshot dataset_name
             (clean_url ext (url (config s) +:+ url_basepath s +:+ endpoint_k)))
    by (unfold fetched_url; by rewrite Hbrace).
  cbv zeta. unfold after_response. rewrite Hbrace.
  destruct (decide _); [|done].
  destruct (truthy _); simpl.
  - split; [apply lookup_insert_eq|]. intros other Hne. by apply lookup_insert_ne.
  - split; [apply lookup_insert_eq|]. intros other Hne. by apply lookup_insert_ne.
Qed.

Lemma append_empty (s : string) : s +:+ "" = s.
Proof.
  induction s as [|c s IH]; [done|].
  change (String c (s +:+ "") = String c s). by rewrite IH.
Qed.

Lemma append_snoc (cur : string) (c : ascii) (s : string) :
  (cur +:+ String c "") +:+ s = cur +:+ String c s.
Proof.
  induction cur as [|a cur IH]; [done|].
  change (String a ((cur +:+ String c "") +:+ s) = String a (cur +:+ String c s)).
  by rewrite IH.
Qed.

(** A text without the separator is split into one piece. *)
Lemma split_without_separator (sep cur w : string) :
  PyStr.contains sep w = false →
  PyStr.split_from sep 0 cur w = [cur +:+ w].
Proof.
  revert cur. induction w as [|c w IH]; intros cur.
  { intros _. simpl. by rewrite append_empty. }
  cbn [PyStr.contains PyStr.split_from]. intros [Hhere Hrest]%orb_false_iff.
  rewrite Hhere, (IH _ Hrest). by rewrite append_snoc.
Qed.

Lemma forward_warnings_raise (warn_c : list string) s (w_msg : string) :
  w_msg ∈ warn_c →
  PyStr.contains " --- " w_msg = false →
  ∃ s', for_each forward_warning warn_c s = (Raise ValueError, s') ∧
        yielded s' = yielded s ∧ calls s' = calls s ∧
        root_dataset_samples s' = root_dataset_samples s.
Proof.
  intros Hin Hbad. revert s.
  induction warn_c as [|w rest IH]; intros s.
  { by apply elem_of_nil in Hin. }
  cbn [for_each]. unfold mbind, M_bind, forward_warning at 1.
  apply elem_of_cons in Hin as [<-|Hin].
  - unfold PyStr.split. rewrite (split_without_separator _ _ _ Hbad).
    exists s. by simpl.
  - destruct (PyStr.split " --- " w) as [|w_spl_reason [|w_spl_key rest']];
      try (exists s; by simpl).
    unfold report_warning, modify.
    destruct (IH Hin (set_report (report s ++ [(w_spl_key, w_spl_reason)]) s))
      as (s' & -> & ? & ? & ?).
    by exists s'.
Qed.

(** X18. A warning of [get_endpoints] whose message lacks the separator
    [" --- "] ends the crawl with a [ValueError] before the loop starts: no
    endpoint is requested and no work unit is yielded. *)
Theorem malformed_warning_aborts s s1 (specification : Specification) (w_msg : string) :
  let r := get_workunits_internal ext s in
  get_swagger ext s = (Ok specification, s1) →
  w_msg ∈ (get_endpoints ext specification).2 →
  PyStr.contains " --- " w_msg = false →
  r.1 = Raise ValueError ∧ yielded r.2 = yielded s1 ∧ calls r.2 = calls s1 ∧
  root_dataset_samples r.2 = root_dataset_samples s1.
Proof.
  cbv zeta. intros Hload Hin Hbad.
  destruct (get_endpoints ext specification) as [url_endpoints warn_c] eqn:Hends.
  destruct (forward_warnings_raise warn_c
              (set_url_basepath (default "" (basePath specification)) s1) w_msg Hin Hbad)
    as (s2 & Hraise & Hy & Hc & Hm).
  assert (get_workunits_internal ext s = (Raise ValueError, s2)) as ->; [|done].
  unfold get_workunits_internal, mbind, M_bind. rewrite Hload.
  unfold modify at 1. rewrite Hends. by rewrite Hraise.
Qed.

(** The loop over the endpoints is the last step of
    [get_workunits_internal]: once the document is loaded and the warnings
    are forwarded, the crawl is that loop, started on an empty sample cache. *)
Lemma get_workunits_internal_loop s s1 s2 (specification : Specification) :
  get_swagger ext s = (Ok specification, s1) →
  for_each forward_warning (get_endpoints ext specification).2
    (set_url_basepath (default "" (basePath specification)) s1) = (Ok tt, s2) →
  get_workunits_internal ext s =
    for_each (process_endpoint ext specification) (get_endpoints ext specification).1
      (set_root_dataset_samples ∅ s2).
Proof.
  intros Hload Hwarn.
  unfold get_workunits_internal, mbind, M_bind. rewrite Hload.
  unfold modify at 1.
  destruct (get_endpoints ext specification) as [url_endpoints warn_c].
  simpl in Hwarn. by rewrite Hwarn.
Qed.

End Loop.

(** ** The further properties on concrete inputs *)

Section MoreRuns.

Import Demo.

Lemma get_swagger_loads_with_final_credentials_witness :
  let w := world [] [] [] in
  let s := OpenApiSource (cfg_with_descriptor get_descriptor) in
  let s' := (get_swagger w s).2 in
  get_swagger w s = (Ok spec_v1, s') ∧
  token (config s') = Some "fresh-token" ∧
  report s' = report s.
Proof.
  intros w s s'.
  assert (get_swagger w s = (Ok spec_v1, s')) as H by (vm_compute; reflexivity).
  split; [exact H|]. split; [vm_compute; reflexivity|].
  destruct (get_swagger_loads_with_final_credentials w s s' spec_v1 H)
    as (_ & _ & Hreport & _).
  exact Hreport.
Defined.

Lemma get_style_acquisition_witness :
  let w := world [] [] [] in
  let c := cfg_with_descriptor get_descriptor in
  get_swagger w (OpenApiSource c) =
    (Ok spec_v1,
     set_calls
       [CallGetTok "http://api" "ada" "pw" "/login?u=ada&p=pw" "get";
        CallGetSwagJson "http://api" (Bearer "fresh-token") ""]
       (set_config (with_token (Some "fresh-token") c) (OpenApiSource c))).
Proof.
  intros w c.
  apply (get_style_acquisition w (OpenApiSource c) "/login?u={username}&p={password}");
    reflexivity.
Defined.

Lemma post_style_acquisition_witness :
  let w := world [] [] [] in
  let c := cfg_with_descriptor post_descriptor in
  get_swagger w (OpenApiSource c) =
    (Ok spec_v1,
     set_calls
       [CallGetTok "http://api" "ada" "pw" "/token" "post";
        CallGetSwagJson "http://api" (Bearer "fresh-token") ""]
       (set_config (with_token (Some "fresh-token") c) (OpenApiSource c))).
Proof.
  intros w c.
  apply (post_style_acquisition w (OpenApiSource c) "/token"); reflexivity.
Defined.

Lemma descriptor_without_url_complement_witness :
  let w := world [] [] [] in
  let s := OpenApiSource (cfg_with_descriptor malformed_descriptor) in
  get_swagger w s =
    (Raise (AssertionError
       "When 'request_type' is set to 'get', an url_complement is needed for the request."),
     s).
Proof.
  intros w s.
  apply (descriptor_without_url_complement w s).
  - reflexivity.
  - refine (bool_decide_unpack _ _). vm_compute. exact I.
  - reflexivity.
Defined.

Lemma unsupported_request_type_witness :
  let w := world [] [] [] in
  let s := OpenApiSource (cfg_with_descriptor put_descriptor) in
  get_swagger w s =
    (Raise (KeyError
       "This tool accepts only 'get' and 'post' as method for getting tokens"), s).
Proof.
  intros w s.
  apply (unsupported_request_type w s "/token").
  - reflexivity.
  - reflexivity.
  - refine (bool_decide_unpack _ _). vm_compute. exact I.
  - refine (bool_decide_unpack _ _). vm_compute. exact I.
Defined.

Lemma failing_endpoint_leaves_no_trace_witness :
  let w := world [] [] [("http://api/v1/users", status 201)] in
  let r := process_endpoint w spec_v1 ("/users", plain "all users") (loaded cfg) in
  r.1 = Raise (Exception "Unable to retrieve endpoint, response code 201, key /users") ∧
  yielded r.2 = [] ∧ report r.2 = [] ∧ root_dataset_samples r.2 = ∅ ∧ config r.2 = cfg.
Proof.
  intros w r.
  assert (r.1 = Raise (Exception
            "Unable to retrieve endpoint, response code 201, key /users")) as H
    by (vm_compute; reflexivity).
  split; [exact H|].
  exact (failing_endpoint_leaves_no_trace w (loaded cfg) spec_v1 "/users"
           (plain "all users") _ H).
Defined.


Lemma skipped_schema_is_no_schema_witness :
  let w := world [] [] [("http://api/v1/anything", ok_users)] in
  process_endpoint w spec_v1 ("/anything", unconstrained) (loaded cfg) =
  process_endpoint w spec_v1 ("/anything", without_schema unconstrained) (loaded cfg).
Proof.
  intros w.
  apply (skipped_schema_is_no_schema w (loaded cfg) spec_v1 "/anything" unconstrained
           [("AnyValue", JObj [])]).
  - reflexivity.
  - right. left. reflexivity.
Defined.

Lemma forced_example_ignores_cache_witness :
  let w := world [] [] [("http://api/v1/users/42", ok_users)] in
  let item := ("/users/{id}", plain "one user") in
  let samples : gmap string json := {[ "users" := JObj [("id", JNum 1)] ]} in
  process_endpoint w spec_v1 item (set_root_dataset_samples samples (loaded cfg_forced)) =
    ((process_endpoint w spec_v1 item (loaded cfg_forced)).1,
     set_root_dataset_samples samples
       (process_endpoint w spec_v1 item (loaded cfg_forced)).2).
Proof.
  intros w item samples.
  apply (forced_example_ignores_cache w (loaded cfg_forced) spec_v1 "/users/{id}"
           (plain "one user") ["42"] samples); reflexivity.
Defined.

Lemma malformed_warning_aborts_witness :
  let w := world [("/users", plain "all users")] ["no separator in this message"]
             [("http://api/v1/users", ok_users)] in
  let s := OpenApiSource cfg in
  let r := get_workunits_internal w s in
  r.1 = Raise ValueError ∧ yielded r.2 = [] ∧
  calls r.2 = [CallGetSwagJson "http://api" (BasicAuth "ada" "pw") ""] ∧
  root_dataset_samples r.2 = ∅.
Proof.
  intros w s r.
  apply (malformed_warning_aborts w s (get_swagger w s).2 spec_v1
           "no separator in this message").
  - reflexivity.
  - simpl. apply list_elem_of_here.
  - reflexivity.
Defined.

Lemma listing_seeds_cache_witness :
  let w := world [] [] [("http://api/v1/users", ok_users)] in
  let snap := (init_dataset w (loaded cfg) "/users" (plain "all users")).1 in
  let s' := (sample_endpoint w "/users" snap "users" (loaded cfg)).2 in
  root_dataset_samples s' !! "users" = Some (JObj [("id", JNum 1); ("name", JStr "Ada")]) ∧
  ∀ other, other ≠ "users" → root_dataset_samples s' !! other = None.
Proof.
  intros w snap s'.
  apply (listing_seeds_cache w (loaded cfg) "/users" snap "users"); reflexivity.
Defined.

End MoreRuns.
